(** * load_sqlite.py: the EHI export loader

    A shallow embedding of [src/load_sqlite.py] and the properties of its
    per-table load pipeline: type mapping, value coercion, table
    definition, and bulk insertion with row-level fallback.

    Conventions of the embedding.

    - A Python [str] is a Rocq [string] holding the UTF-8 encoding of the
      text.  All patterns the loader searches for (['.tsv'], ['--'],
      ['.'], ['\r'], ['\n']) are ASCII, so searching bytes and searching
      code points agree.  [str.strip] removes the Unicode white space
      characters, matched here through their UTF-8 encodings.  Decimal
      digits are the ASCII ones: text with other Unicode decimal digits
      (which [int] and [float] also read) is outside the model, and so is
      the interpreter's optional limit on the length of integer literals.
    - A Python [int] is a [Z]; a Python [float] is a binary64 value kept
      exactly as sign, odd mantissa and binary exponent ([pyfloat]).
    - Raising is explicit: fallible code returns a [result].
    - The sqlite3 connection is external to the repository: the loader is
      written over an arbitrary connection type and its three entry points
      ([Section Loader]). *)

From Stdlib Require Import ZArith Lia Ascii String Sorting.Sorted.
From stdpp Require Import base option list strings gmap pretty.

Open Scope string_scope.
Open Scope list_scope.
Open Scope nat_scope.

(** ** Exceptions *)

Inductive exn_kind :=
| ValueError | OverflowError | KeyError | AttributeError | OSError
| JSONDecodeError               (* a subclass of ValueError *)
| CsvError.

Record exn := Exn { exn_kind_of : exn_kind; exn_msg : string }.

Inductive result (A : Type) :=
| Ok (a : A)
| Raise (e : exn).
Arguments Ok {A} a.
Arguments Raise {A} e.

Definition bind {A B} (r : result A) (k : A -> result B) : result B :=
  match r with
  | Ok a => k a
  | Raise e => Raise e
  end.

Notation "'let*' x ':=' r 'in' k" := (bind r (fun x => k))
  (at level 10, x name, r at level 200, k at level 200, only parsing).

(** [try: r except kinds: h] runs [h] when [r] raises an exception whose
    class is one of [kinds]; any other exception propagates. *)
Definition kind_eqb (a b : exn_kind) : bool :=
  match a, b with
  | ValueError, ValueError | OverflowError, OverflowError
  | KeyError, KeyError | AttributeError, AttributeError
  | OSError, OSError | JSONDecodeError, JSONDecodeError
  | CsvError, CsvError => true
  | _, _ => false
  end.

(** [isinstance e k], with the one subclass relation that matters here. *)
Definition kind_is (k : exn_kind) (e : exn) : bool :=
  kind_eqb (exn_kind_of e) k
  || (kind_eqb k ValueError && kind_eqb (exn_kind_of e) JSONDecodeError).

Definition try_except {A} (r : result A) (kinds : list exn_kind)
    (h : result A) : result A :=
  match r with
  | Ok a => Ok a
  | Raise e => if existsb (fun k => kind_is k e) kinds then h else Raise e
  end.

(** A bare [except:] catches everything. *)
Definition try_except_all {A} (r : result A) (h : result A) : result A :=
  match r with
  | Ok a => Ok a
  | Raise _ => h
  end.

(** ** Strings *)

Module PyStr.

Definition byte (n : nat) : ascii := ascii_of_nat n.
Definition code (c : ascii) : nat := nat_of_ascii c.

(** ASCII white space as [str.isspace] has it: TAB..CR, FS..US, SPACE. *)
Definition is_ascii_space (c : ascii) : bool :=
  let n := code c in
  ((9 <=? n) && (n <=? 13)) || ((28 <=? n) && (n <=? 32)).

(** Length in bytes of the white space character that starts [s]
    (0 when [s] does not start with one).  Beyond ASCII these are
    U+0085, U+00A0, U+1680, U+2000..U+200A, U+2028, U+2029, U+202F,
    U+205F and U+3000. *)
Definition leading_space (s : string) : nat :=
  match s with
  | String c r =>
      if is_ascii_space c then 1
      else match code c, r with
           | 194, String d _ =>
               if (code d =? 133) || (code d =? 160) then 2 else 0
           | 225, String d (String e _) =>
               if (code d =? 154) && (code e =? 128) then 3 else 0
           | 226, String d (String e _) =>
               if (code d =? 128)
                  && (((128 <=? code e) && (code e <=? 138))
                      || (code e =? 168) || (code e =? 169)
                      || (code e =? 175))
               then 3
               else if (code d =? 129) && (code e =? 159) then 3 else 0
           | 227, String d (String e _) =>
               if (code d =? 128) && (code e =? 128) then 3 else 0
           | _, _ => 0
           end
  | EmptyString => 0
  end.

(** The same for the character that ends a text, read backwards. *)
Definition trailing_space (rs : list ascii) : nat :=
  match rs with
  | c :: r =>
      if is_ascii_space c then 1
      else match r with
           | d :: r' =>
               if (code d =? 194) && ((code c =? 133) || (code c =? 160))
               then 2
               else match r' with
                    | e :: _ =>
                        if leading_space
                             (String e (String d (String c EmptyString)))
                           =? 3
                        then 3 else 0
                    | [] => 0
                    end
           | [] => 0
           end
  | [] => 0
  end.

Fixpoint drop (n : nat) (s : string) : string :=
  match n, s with
  | S k, String _ r => drop k r
  | _, _ => s
  end.

(** [lstrip]: [skip] counts the bytes still to drop of the white space
    character being removed. *)
Fixpoint lstrip_from (skip : nat) (s : string) : string :=
  match s with
  | EmptyString => EmptyString
  | String _ r =>
      match skip with
      | S k => lstrip_from k r
      | O => match leading_space s with
             | O => s
             | S k => lstrip_from k r
             end
      end
  end.
Definition lstrip (s : string) : string := lstrip_from 0 s.

Fixpoint rstrip_rev (skip : nat) (rs : list ascii) : list ascii :=
  match rs with
  | [] => []
  | _ :: r =>
      match skip with
      | S k => rstrip_rev k r
      | O => match trailing_space rs with
             | O => rs
             | S k => rstrip_rev k r
             end
      end
  end.
Definition rstrip (s : string) : string :=
  string_of_list_ascii
    (rev (rstrip_rev 0 (rev (list_ascii_of_string s)))).

(** [s.strip()] *)
Definition strip (s : string) : string := rstrip (lstrip s).

(** [s.rstrip('\r')] *)
Fixpoint drop_while_cr (rs : list ascii) : list ascii :=
  match rs with
  | c :: r => if code c =? 13 then drop_while_cr r else rs
  | [] => []
  end.
Definition rstrip_cr (s : string) : string :=
  string_of_list_ascii
    (rev (drop_while_cr (rev (list_ascii_of_string s)))).

(** [s.startswith(p)] *)
Fixpoint startswith (p s : string) : bool :=
  match p, s with
  | EmptyString, _ => true
  | String a p', String b s' => (code a =? code b) && startswith p' s'
  | String _ _, EmptyString => false
  end.

(** [s.endswith(p)] *)
Definition endswith (p s : string) : bool :=
  startswith (string_of_list_ascii (rev (list_ascii_of_string p)))
             (string_of_list_ascii (rev (list_ascii_of_string s))).

(** [p in s] *)
Fixpoint contains (p s : string) : bool :=
  startswith p s
  || match s with
     | String _ r => contains p r
     | EmptyString => false
     end.

(** [s.replace(old, new)] for a non-empty [old]: every occurrence, left
    to right, without overlap.  [skip] counts the bytes of a matched
    occurrence still to pass over. *)
Fixpoint replace_from (old new : string) (skip : nat) (s : string)
    : string :=
  match s with
  | EmptyString => EmptyString
  | String c r =>
      match skip with
      | S k => replace_from old new k r
      | O =>
          if startswith old s
          then new +:+ replace_from old new (String.length old - 1) r
          else String c (replace_from old new 0 r)
      end
  end.
Definition replace (old new s : string) : string :=
  replace_from old new 0 s.

(** [sep.join(parts)] *)
Fixpoint join (sep : string) (parts : list string) : string :=
  match parts with
  | [] => ""
  | [p] => p
  | p :: rest => p +:+ sep +:+ join sep rest
  end.

Definition eqb (a b : string) : bool := bool_decide (a = b).

End PyStr.

(** ** Numbers: [int(str)], [float(str)], [int(float)] *)

(** A Python float: a binary64 value, kept exactly.  [FFin neg m e] is
    [(-1)^neg * m * 2^e] with [m] odd, or [m = 0] and [e = 0]. *)
Inductive pyfloat :=
| FNan
| FInf (neg : bool)
| FFin (neg : bool) (m : N) (e : Z).

Module PyNum.
Import PyStr.

Definition is_digit (c : ascii) : bool :=
  (48 <=? code c) && (code c <=? 57).
Definition digit_val (c : ascii) : Z := Z.of_nat (code c - 48).

Definition digits_value (ds : list Z) : Z :=
  fold_left (fun acc d => (10 * acc + d)%Z) ds 0%Z.

(** An optional sign: [(is_negative, rest)]. *)
Definition split_sign (s : string) : bool * string :=
  match s with
  | String c r =>
      if code c =? 45 then (true, r)
      else if code c =? 43 then (false, r)
      else (false, s)
  | EmptyString => (false, s)
  end.

(** The digits of an integer literal: one or more digits, single
    underscores allowed between two digits only. *)
Fixpoint digitpart (after_digit : bool) (s : string) : option (list Z) :=
  match s with
  | EmptyString => if after_digit then Some [] else None
  | String c r =>
      if is_digit c then
        match digitpart true r with
        | Some ds => Some (digit_val c :: ds)
        | None => None
        end
      else if code c =? 95 then
        if after_digit then digitpart false r else None
      else None
  end.

(** [int(s)] for an already stripped [s], base 10. *)
Definition py_int (s : string) : result Z :=
  let '(neg, r) := split_sign s in
  match digitpart false r with
  | Some ds =>
      Ok (if neg then (- digits_value ds)%Z else digits_value ds)
  | None => Raise (Exn ValueError "invalid literal for int() with base 10")
  end.

(** *** Decimal to binary64, round half to even *)

Fixpoint strip_twos (p : positive) : positive * Z :=
  match p with
  | xO p' => let '(q, k) := strip_twos p' in (q, (k + 1)%Z)
  | _ => (p, 0%Z)
  end.

Definition normalize (neg : bool) (m e : Z) : pyfloat :=
  match m with
  | Zpos p => let '(q, k) := strip_twos p in FFin neg (Npos q) (e + k)
  | _ => FFin neg 0 0
  end.

(** The binary64 nearest to [num / den], for [num, den > 0]: the
    quotient is scaled to 53 significant bits (fewer below the normal
    range, whose least exponent is -1074), rounded half to even, and
    becomes an infinity from [2^1024] on. *)
Definition round_ratio (neg : bool) (num den : Z) : pyfloat :=
  let scaled (e : Z) : Z * Z :=
    if (0 <=? e)%Z then (num, den * 2 ^ e)%Z
    else (num * 2 ^ (- e), den)%Z in
  let e0 := (Z.log2 num - Z.log2 den - 52)%Z in
  let '(n0, d0) := scaled e0 in
  let e1 := if (n0 / d0 <? 2 ^ 52)%Z then (e0 - 1)%Z else e0 in
  let e := Z.max e1 (-1074) in
  let '(n, d) := scaled e in
  let q := (n / d)%Z in
  let r := (n mod d)%Z in
  let m := if (d <? 2 * r)%Z || ((d =? 2 * r)%Z && Z.odd q)
           then (q + 1)%Z else q in
  if (971 <? e)%Z || ((e =? 971)%Z && (m =? 2 ^ 53)%Z) then FInf neg
  else normalize neg m e.

(** The float written [digits * 10^exp10]. *)
Definition float_of_decimal (neg : bool) (digits exp10 : Z) : pyfloat :=
  if (digits =? 0)%Z then FFin neg 0 0
  else if (0 <=? exp10)%Z then round_ratio neg (digits * 10 ^ exp10) 1
  else round_ratio neg digits (10 ^ (- exp10)).

(** *** The grammar of [float(s)] *)

Fixpoint take_digits (s : string) : list Z * string :=
  match s with
  | String c r =>
      if is_digit c
      then let '(ds, rest) := take_digits r in (digit_val c :: ds, rest)
      else ([], s)
  | EmptyString => ([], s)
  end.

(** Underscores are accepted between two digits only, and dropped. *)
Fixpoint remove_underscores (prev_digit : bool) (s : string)
    : option string :=
  match s with
  | EmptyString => Some EmptyString
  | String c r =>
      if code c =? 95 then
        if prev_digit
           && match r with String d _ => is_digit d | _ => false end
        then remove_underscores false r
        else None
      else
        match remove_underscores (is_digit c) r with
        | Some r' => Some (String c r')
        | None => None
        end
  end.

Definition to_lower (c : ascii) : ascii :=
  if (65 <=? code c) && (code c <=? 90) then byte (code c + 32) else c.

Fixpoint lower (s : string) : string :=
  match s with
  | String c r => String (to_lower c) (lower r)
  | EmptyString => EmptyString
  end.

(** [digits [. digits] [(e|E) [sign] digits]], at least one digit in
    the mantissa, nothing after. *)
Definition parse_decimal (neg : bool) (s : string) : option pyfloat :=
  let '(ip, s1) := take_digits s in
  let '(fp, s2) :=
    match s1 with
    | String c r => if code c =? 46 then take_digits r else ([], s1)
    | EmptyString => ([], s1)
    end in
  let mant := digits_value (ip ++ fp) in
  let scale := Z.of_nat (length fp) in
  if length ip + length fp =? 0 then None
  else
    match s2 with
    | EmptyString => Some (float_of_decimal neg mant (- scale))
    | String c r =>
        if (code c =? 101) || (code c =? 69) then
          let '(eneg, r1) := split_sign r in
          match take_digits r1 with
          | (d :: ds, EmptyString) =>
              let ex := digits_value (d :: ds) in
              Some (float_of_decimal neg mant
                      ((if eneg then - ex else ex) - scale))
          | _ => None
          end
        else None
    end.

(** [float(s)] for an already stripped [s]. *)
Definition py_float (s : string) : result pyfloat :=
  let bad := Raise (Exn ValueError "could not convert string to float") in
  match remove_underscores false s with
  | None => bad
  | Some t =>
      let '(neg, r) := split_sign t in
      let l := lower r in
      if eqb l "inf" || eqb l "infinity" then Ok (FInf neg)
      else if eqb l "nan" then Ok FNan
      else match parse_decimal neg r with
           | Some f => Ok f
           | None => bad
           end
  end.

(** [int(f)]: truncation toward zero. *)
Definition float_to_int (f : pyfloat) : result Z :=
  match f with
  | FNan => Raise (Exn ValueError "cannot convert float NaN to integer")
  | FInf _ =>
      Raise (Exn OverflowError "cannot convert float infinity to integer")
  | FFin neg m e =>
      let a := if (0 <=? e)%Z then (Z.of_N m * 2 ^ e)%Z
               else (Z.of_N m / 2 ^ (- e))%Z in
      Ok (if neg then (- a)%Z else a)
  end.

(** [f == z], exact. *)
Definition float_eq_int (f : pyfloat) (z : Z) : bool :=
  match f with
  | FFin neg m e =>
      let sm := if neg then (- Z.of_N m)%Z else Z.of_N m in
      if (0 <=? e)%Z then (sm * 2 ^ e =? z)%Z
      else (sm =? z * 2 ^ (- e))%Z
  | _ => false
  end.

End PyNum.

(** ** The value coercer (lines 104-124) *)

(** What is bound to a SQL parameter: [None], an [int], a [float] or a
    [str]. *)
Inductive pyval :=
| VNone
| VInt (z : Z)
| VFloat (f : pyfloat)
| VText (s : string).

Definition coerce (value : option string) (col_type : string)
    : result pyval :=
  match value with
  | None => Ok VNone
  | Some v =>
      if PyStr.eqb (PyStr.strip v) "" then Ok VNone
      else
        let value := PyStr.strip v in
        if PyStr.eqb col_type "INTEGER" then
          try_except
            (let* z := PyNum.py_int value in Ok (VInt z))
            [ValueError; OverflowError]
            (try_except_all
               (let* f := PyNum.py_float value in
                let* z := PyNum.float_to_int f in
                Ok (VInt z))
               (Ok (VText value)))
        else if PyStr.eqb col_type "NUMERIC" || PyStr.eqb col_type "REAL"
        then
          try_except
            (let* f := PyNum.py_float value in
             let* i := PyNum.float_to_int f in
             if PyNum.float_eq_int f i && negb (PyStr.contains "." value)
             then (let* i' := PyNum.float_to_int f in Ok (VInt i'))
             else Ok (VFloat f))
            [ValueError; OverflowError]
            (Ok (VText value))
        else Ok (VText value)
  end.

(** The test of line 119, [f == int(f)]: [f] is finite and equals its
    own truncation. *)
Definition integral (f : pyfloat) : bool :=
  match PyNum.float_to_int f with
  | Ok i => PyNum.float_eq_int f i
  | Raise _ => false
  end.

(** What the INTEGER branch returns for a non-empty trimmed text. *)
Definition integer_branch (t : string) : pyval :=
  match PyNum.py_int t with
  | Ok z => VInt z
  | Raise _ =>
      match PyNum.py_float t with
      | Ok f =>
          match PyNum.float_to_int f with
          | Ok z => VInt z
          | Raise _ => VText t
          end
      | Raise _ => VText t
      end
  end.

(** What the NUMERIC/REAL branch returns for a non-empty trimmed text. *)
Definition numeric_branch (t : string) : pyval :=
  match PyNum.py_float t with
  | Raise _ => VText t
  | Ok f =>
      match PyNum.float_to_int f with
      | Raise _ => VText t            (* an infinity or a NaN *)
      | Ok i =>
          if integral f && negb (PyStr.contains "." t) then VInt i
          else VFloat f
      end
  end.

(** ** The type mapper (lines 28-37) *)

Definition TYPE_MAP : gmap string string :=
  <["VARCHAR" := "TEXT"]>
  (<["NUMERIC" := "NUMERIC"]>
  (<["INTEGER" := "INTEGER"]>
  (<["FLOAT" := "REAL"]>
  (<["DATETIME" := "TEXT"]>
  (<["DATETIME (Local)" := "TEXT"]>
  (<["DATETIME (UTC)" := "TEXT"]>
  (<["DATETIME (Attached)" := "TEXT"]> ∅))))))).

(** [d.get(k, dflt)] *)
Definition dict_get {V} (d : gmap string V) (k : string) (dflt : V) : V :=
  default dflt (d !! k).

(** [TYPE_MAP.get(label, 'TEXT')] *)
Definition map_type (label : string) : string :=
  dict_get TYPE_MAP label "TEXT".

(** ** Schema descriptors

    The parsed JSON of a descriptor, typed as the loader reads it.  An
    absent key is [None].  A [null] description behaves as the empty one
    ([esc] sends both to the empty text) and is written [Some ""]. *)

Record column := Column {
  col_name : option string;          (* col['name'] *)
  col_type : option string;          (* col.get('type', '') *)
  col_description : option string    (* col.get('description', '') *)
}.

Record pk_entry := PkEntry {
  columnName : option string         (* p['columnName'] *)
}.

Record schema := Schema {
  description : option string;
  primaryKey : option (list pk_entry);
  columns : option (list column);
  other_keys : list string           (* keys the loader never reads *)
}.

(** Truth value of the descriptor, a [dict]: false exactly when empty. *)
Definition schema_truthy (s : schema) : bool :=
  bool_decide (is_Some (description s))
  || bool_decide (is_Some (primaryKey s))
  || bool_decide (is_Some (columns s))
  || negb (bool_decide (other_keys s = [])).

(** [if schema:] where [schema] may be [None]. *)
Definition truthy (s : option schema) : bool :=
  match s with
  | Some d => schema_truthy d
  | None => false
  end.

(** [schema.get('columns', [])] and [schema.get('primaryKey', [])] *)
Definition get_columns (s : schema) : list column := default [] (columns s).
Definition get_primaryKey (s : schema) : list pk_entry :=
  default [] (primaryKey s).

(** [d[key]] on a [dict]: [KeyError] when absent; [str(e)] of a
    [KeyError] is the [repr] of the key. *)
Definition subscript {A} (field : option A) (key : string) : result A :=
  match field with
  | Some a => Ok a
  | None => Raise (Exn KeyError ("'" +:+ key +:+ "'"))
  end.

(** [TYPE_MAP.get(col.get('type', '').strip(), 'TEXT')] (lines 63, 155) *)
Definition column_type (col : column) : string :=
  map_type (PyStr.strip (default "" (col_type col))).

Definition LF : string := String (PyStr.byte 10) EmptyString.
Definition CR : string := String (PyStr.byte 13) EmptyString.

(** The replacement text of [esc], as the source file has it: the three
    characters U+00E2 U+20AC U+201D. *)
Definition DASHES : string :=
  string_of_list_ascii
    (map PyStr.byte [195; 162; 226; 130; 172; 226; 128; 157]).

(** [esc] (lines 40-43) *)
Definition esc (text : option string) : string :=
  match text with
  | None => ""
  | Some t =>
      if PyStr.eqb t "" then ""
      else PyStr.replace CR ""
             (PyStr.replace LF " " (PyStr.replace "--" DASHES t))
  end.

(** ** The schema loader (lines 46-51) *)

Definition TSV_DIR : string := "tsv".
Definition SCHEMA_DIR : string := "schemas".

(** [os.path.join(dir, file)] for a relative [file]. *)
Definition path_join (dir file : string) : string := dir +:+ "/" +:+ file.

(** What [schemas/<name>.json] holds. *)
Inductive schema_file :=
| NoSchemaFile                  (* no such file, or a file of zero bytes *)
| BadJson (msg : string)        (* [json.load] raises on it *)
| Json (s : schema).            (* [json.load] returns this object *)

(** What [csv.DictReader] yields for one data line: the fields zipped
    with the header ([None] where the line is short), and the fields
    beyond the header, kept as a list under the key [None]. *)
Record dict_row := DictRow {
  row_items : list (string * option string);
  row_rest : list string
}.

Record tsv_content := TsvContent {
  fieldnames : option (list string);    (* [None] for an empty file *)
  reader_rows : list dict_row
}.

(** The two source directories. *)
Record sources := Sources {
  listdir : list string;                         (* os.listdir(TSV_DIR) *)
  open_tsv : string -> result tsv_content;       (* by path *)
  open_schema : string -> schema_file            (* by path *)
}.

Definition load_schema (src : sources) (name : string)
    : result (option schema) :=
  let path := path_join SCHEMA_DIR (name +:+ ".json") in
  match open_schema src path with
  | NoSchemaFile => Ok None
  | BadJson msg => Raise (Exn JSONDecodeError msg)
  | Json s => Ok (Some s)
  end.

(** ** The row reader (lines 87-101) *)

(** [header[-1] = header[-1].rstrip('\r')] when it ends with ['\r']. *)
Fixpoint clean_header (header : list string) : list string :=
  match header with
  | [] => []
  | [h] => [if PyStr.endswith CR h then PyStr.rstrip_cr h else h]
  | h :: rest => h :: clean_header rest
  end.

(** The loop over [row.items()] (lines 96-99). *)
Fixpoint clean_items (items : list (string * option string))
    (cleaned : gmap string (option string)) : gmap string (option string) :=
  match items with
  | [] => cleaned
  | (k, v) :: rest =>
      let key := if PyStr.eqb k "" then k else PyStr.rstrip_cr k in
      let val := match v with
                 | Some t => if PyStr.eqb t "" then v
                             else Some (PyStr.rstrip_cr t)
                 | None => v
                 end in
      clean_items rest (<[key := val]> cleaned)
  end.

(** One row: the fields, then the entry under [None] if the line was
    long; its value is a non-empty list, on which [rstrip] is missing. *)
Definition clean_row (row : dict_row)
    : result (gmap string (option string)) :=
  let cleaned := clean_items (row_items row) ∅ in
  match row_rest row with
  | [] => Ok cleaned
  | _ :: _ =>
      Raise (Exn AttributeError "'list' object has no attribute 'rstrip'")
  end.

Fixpoint mapM {A B} (f : A -> result B) (l : list A) : result (list B) :=
  match l with
  | [] => Ok []
  | a :: rest =>
      let* b := f a in
      let* bs := mapM f rest in
      Ok (b :: bs)
  end.

Definition load_tsv_rows (src : sources) (tsv_path : string)
    : result (list string * list (gmap string (option string))) :=
  let* content := open_tsv src tsv_path in
  let header := clean_header (default [] (fieldnames content)) in
  let* rows := mapM clean_row (reader_rows content) in
  Ok (header, rows).

(** ** The table definer and the bulk loader *)

Definition DQUOTE : string := String (PyStr.byte 34) EmptyString.

(** [f'"{c}"'] *)
Definition quoted (c : string) : string := DQUOTE +:+ c +:+ DQUOTE.

(** The loop of lines 61-68, [i] counting from the first column. *)
Fixpoint column_loop (n_columns : nat) (no_pk : bool) (i : nat)
    (cols : list column) (col_defs col_names : list string)
    : result (list string * list string) :=
  match cols with
  | [] => Ok (col_defs, col_names)
  | col :: rest =>
      let* cname := subscript (col_name col) "name" in
      let ctype := column_type col in
      let cdesc := esc (Some (default "" (col_description col))) in
      let is_last := (i =? n_columns - 1) && no_pk in
      let comma := if is_last then "" else "," in
      column_loop n_columns no_pk (S i) rest
        (col_defs ++ ["  " +:+ quoted cname +:+ " " +:+ ctype +:+ comma
                      +:+ " -- " +:+ cdesc])
        (col_names ++ [cname])
  end.

(** [line] is the DDL line of the column [col]: its quoted name, its
    mapped type, a comma or none, and its description as a comment. *)
Definition line_defines (col : column) (line : string) : Prop :=
  exists cname comma,
    col_name col = Some cname
    /\ (comma = "" \/ comma = ",")
    /\ line = "  " +:+ quoted cname +:+ " " +:+ column_type col +:+ comma
              +:+ " -- " +:+ esc (Some (default "" (col_description col))).

(** Lines 55-76: the script handed to [executescript] and the column
    names, or the exception raised while building them. *)
Definition create_table_script (name : string) (schema : schema)
    : result (string * list string) :=
  let desc := esc (Some (default "" (description schema))) in
  let* pk_cols :=
    mapM (fun p => subscript (columnName p) "columnName")
         (get_primaryKey schema) in
  let columns := get_columns schema in
  let no_pk := bool_decide (pk_cols = []) in
  let* defs_names := column_loop (length columns) no_pk 0 columns [] [] in
  let body := PyStr.join LF (fst defs_names) in
  let pk :=
    if no_pk then ""
    else "," +:+ LF +:+ "  PRIMARY KEY ("
         +:+ PyStr.join ", " (map quoted pk_cols) +:+ ")" in
  let sql := "CREATE TABLE " +:+ quoted name +:+ " ( -- " +:+ desc +:+ LF
             +:+ body +:+ pk +:+ LF +:+ ");" in
  Ok ("DROP TABLE IF EXISTS " +:+ quoted name +:+ ";" +:+ LF +:+ sql,
      snd defs_names).

(** The two statements of [create_table_from_header] (lines 81-83). *)
Definition header_drop_sql (name : string) : string :=
  "DROP TABLE IF EXISTS " +:+ quoted name.
Definition header_create_sql (name : string) (header : list string)
    : string :=
  let col_defs :=
    PyStr.join ", " (map (fun h => quoted h +:+ " TEXT") header) in
  "CREATE TABLE " +:+ quoted name +:+ " (" +:+ col_defs +:+ ")".

(** Line 172. *)
Definition insert_statement (name : string) (schema_cols : list string)
    : string :=
  let placeholders := PyStr.join ", " (map (fun _ => "?") schema_cols) in
  let col_list := PyStr.join ", " (map quoted schema_cols) in
  "INSERT OR REPLACE INTO " +:+ quoted name +:+ " (" +:+ col_list
  +:+ ") VALUES (" +:+ placeholders +:+ ")".

(** Lines 152-155. *)
Fixpoint col_types_loop (cols : list column) (col_types : gmap string string)
    : result (gmap string string) :=
  match cols with
  | [] => Ok col_types
  | col :: rest =>
      let* cname := subscript (col_name col) "name" in
      col_types_loop rest (<[cname := column_type col]> col_types)
  end.

Definition build_col_types (schema : option schema)
    : result (gmap string string) :=
  match schema with
  | Some d =>
      if schema_truthy d then col_types_loop (get_columns d) ∅ else Ok ∅
  | None => Ok ∅
  end.

(** Lines 176-180: the tuple of one row. *)
Definition row_values (col_types : gmap string string)
    (schema_cols : list string) (row : gmap string (option string))
    : result (list pyval) :=
  mapM (fun col =>
          let raw := dict_get row col (Some "") in
          let ctype := dict_get col_types col "TEXT" in
          coerce raw ctype)
       schema_cols.

(** Lines 174-181. *)
Definition build_batch (col_types : gmap string string)
    (schema_cols : list string) (rows : list (gmap string (option string)))
    : result (list (list pyval)) :=
  mapM (row_values col_types schema_cols) rows.

Section Loader.

(** The sqlite3 connection: its state, and what each call does to it.
    A call returns the new state and the exception it raised, if any. *)
Variable conn : Type.
Variable executescript : conn -> string -> conn * option exn.
Variable execute : conn -> string -> list pyval -> conn * option exn.
Variable executemany :
  conn -> string -> list (list pyval) -> conn * option exn.

Variable src : sources.

(** [create_table] (lines 54-77) *)
Definition create_table (c : conn) (name : string) (schema : schema)
    : conn * result (list string) :=
  match create_table_script name schema with
  | Raise e => (c, Raise e)
  | Ok (script, col_names) =>
      match executescript c script with
      | (c', Some e) => (c', Raise e)
      | (c', None) => (c', Ok col_names)
      end
  end.

(** [create_table_from_header] (lines 80-84) *)
Definition create_table_from_header (c : conn) (name : string)
    (header : list string) : conn * result (list string) :=
  match execute c (header_drop_sql name) [] with
  | (c1, Some e) => (c1, Raise e)
  | (c1, None) =>
      match execute c1 (header_create_sql name header) [] with
      | (c2, Some e) => (c2, Raise e)
      | (c2, None) => (c2, Ok header)
      end
  end.

(** The choice of lines 158-161. *)
Definition define_table (c : conn) (name : string)
    (schema : option schema) (header : list string)
    : conn * result (list string) :=
  match schema with
  | Some d =>
      if schema_truthy d then create_table c name d
      else create_table_from_header c name header
  | None => create_table_from_header c name header
  end.

(** The counters of [main] and the connection. *)
Record run_state := RunState {
  db : conn;
  tables_ok : nat;
  total_rows : nat;
  errors : list string
}.

(** The row-by-row fallback (lines 188-195). *)
Fixpoint fallback_loop (insert_sql name : string) (c : conn)
    (i inserted : nat) (errors : list string) (batch : list (list pyval))
    : conn * nat * list string :=
  match batch with
  | [] => (c, inserted, errors)
  | values :: rest =>
      match execute c insert_sql values with
      | (c', None) =>
          fallback_loop insert_sql name c' (S i) (S inserted) errors rest
      | (c', Some e2) =>
          let errors' :=
            if (inserted =? 0) && (i =? 0)
            then errors ++ [name +:+ ": INSERT row 0: " +:+ exn_msg e2]
            else errors in
          fallback_loop insert_sql name c' (S i) inserted errors' rest
      end
  end.

(** The insert of one table's batch (lines 183-198). *)
Definition insert_batch (st : run_state) (c : conn)
    (insert_sql name : string) (batch : list (list pyval)) : run_state :=
  match executemany c insert_sql batch with
  | (c', None) =>
      RunState c' (tables_ok st + 1) (total_rows st + length batch)
               (errors st)
  | (c', Some _) =>
      let '(c'', inserted, errors') :=
        fallback_loop insert_sql name c' 0 0 (errors st) batch in
      RunState c'' (if 0 <? inserted then tables_ok st + 1 else tables_ok st)
               (total_rows st + inserted) errors'
  end.

(** What [execute] answers for each row of the batch, in order, and
    the connection after the last one. *)
Fixpoint row_outcomes (insert_sql : string) (c : conn)
    (batch : list (list pyval)) : list (option exn) * conn :=
  match batch with
  | [] => ([], c)
  | values :: rest =>
      let '(c', r) := execute c insert_sql values in
      let '(outs, c'') := row_outcomes insert_sql c' rest in
      (r :: outs, c'')
  end.

(** The body of the loop over the files (lines 143-198).  [Ok] is the
    state at the end of the iteration or at its [continue]; [Raise] is
    an exception that leaves [main]. *)
Definition process_table (st : run_state) (tsv_file : string)
    : result run_state :=
  let name := PyStr.replace ".tsv" "" tsv_file in
  let tsv_path := path_join TSV_DIR tsv_file in
  let* schema := load_schema src name in
  let* header_rows := load_tsv_rows src tsv_path in
  let header := fst header_rows in
  let rows := snd header_rows in
  if bool_decide (header = []) then
    Ok (RunState (db st) (tables_ok st) (total_rows st)
                 (errors st ++ [name +:+ ": empty TSV"]))
  else
    let* col_types := build_col_types schema in
    match define_table (db st) name schema header with
    | (c, Raise e) =>
        Ok (RunState c (tables_ok st) (total_rows st)
              (errors st ++ [name +:+ ": CREATE failed: " +:+ exn_msg e]))
    | (c, Ok schema_cols) =>
        if bool_decide (rows = []) then
          Ok (RunState c (tables_ok st + 1) (total_rows st) (errors st))
        else
          let insert_sql := insert_statement name schema_cols in
          let* batch := build_batch col_types schema_cols rows in
          Ok (insert_batch st c insert_sql name batch)
    end.

(** [sorted(f for f in os.listdir(TSV_DIR) if f.endswith('.tsv'))] *)
Fixpoint insert_sorted (f : string) (l : list string) : list string :=
  match l with
  | [] => [f]
  | g :: rest =>
      if String.leb f g then f :: l else g :: insert_sorted f rest
  end.
Definition sorted (l : list string) : list string :=
  fold_right insert_sorted [] l.

Definition tsv_files : list string :=
  sorted (filter (fun f => PyStr.endswith ".tsv" f = true) (listdir src)).

(** The loop of line 142. *)
Fixpoint main_loop (st : run_state) (files : list string)
    : result run_state :=
  match files with
  | [] => Ok st
  | tsv_file :: rest =>
      let* st' := process_table st tsv_file in
      main_loop st' rest
  end.

(** [main], up to the commit: from the fresh connection [c0] to the
    counters the summary prints. *)
Definition main (c0 : conn) : result run_state :=
  main_loop (RunState c0 0 0 []) tsv_files.

(** The rows one table's load inserts when it starts on the connection
    [c]: what it adds to a zero count; and these counts for the files
    of a run, each table starting where the one before it stopped. *)
Fixpoint per_table_inserted (c : conn) (files : list string) : list nat :=
  match files with
  | [] => []
  | tsv_file :: rest =>
      match process_table (RunState c 0 0 []) tsv_file with
      | Ok s => total_rows s :: per_table_inserted (db s) rest
      | Raise _ => []
      end
  end.

(** The state [s] with counts [a], [b] and messages [e] in front. *)
Definition shift (a b : nat) (e : list string) (s : run_state)
    : run_state :=
  RunState (db s) (a + tables_ok s) (b + total_rows s) (e ++ errors s).

End Loader.

Arguments RunState {conn} _ _ _ _.
Arguments db {conn} _.
Arguments tables_ok {conn} _.
Arguments total_rows {conn} _.
Arguments errors {conn} _.

(** ** Vocabulary of the statements below *)

(** The rows that went in: the outcomes that are no exception. *)
Definition successes (outs : list (option exn)) : nat :=
  length (filter (fun r => r = None) outs).

(** The one message the fallback can add: that of row 0. *)
Definition row_0_error (name : string) (outs : list (option exn))
    : list string :=
  match outs with
  | Some e2 :: _ => [name +:+ ": INSERT row 0: " +:+ exn_msg e2]
  | _ => []
  end.

Definition fmap_result {A B} (f : A -> B) (r : result A) : result B :=
  match r with
  | Ok a => Ok (f a)
  | Raise e => Raise e
  end.

(** ** A reference connection

    Used for the examples: it logs every statement that succeeded with
    the values bound to it, and refuses, as sqlite3 does, to bind an
    integer outside the signed 64-bit range.  [executemany] runs the
    rows in order and stops at the first one that fails. *)
Module RefStore.

Definition conn : Type := list (string * list pyval).

Definition fits (v : pyval) : bool :=
  match v with
  | VInt z => ((- 2 ^ 63 <=? z) && (z <? 2 ^ 63))%Z
  | _ => true
  end.

Definition too_large : exn :=
  Exn OverflowError "Python int too large to convert to SQLite INTEGER".

Definition executescript (c : conn) (script : string)
    : conn * option exn :=
  (c ++ [(script, [])], None).

Definition execute (c : conn) (sql : string) (values : list pyval)
    : conn * option exn :=
  if forallb fits values then (c ++ [(sql, values)], None)
  else (c, Some too_large).

Fixpoint executemany (c : conn) (sql : string)
    (batch : list (list pyval)) : conn * option exn :=
  match batch with
  | [] => (c, None)
  | values :: rest =>
      match execute c sql values with
      | (c', None) => executemany c' sql rest
      | (c', Some e) => (c', Some e)
      end
  end.

Definition process_table :=
  process_table conn executescript execute executemany.
Definition main := main conn executescript execute executemany.

End RefStore.

Definition row_of (items : list (string * string)) : dict_row :=
  DictRow (map (fun kv => (fst kv, Some (snd kv))) items) [].

(** ** Example inputs *)

(** A descriptor for PATIENT: an INTEGER key and a VARCHAR name. *)
Definition demo_schema : schema :=
  Schema (Some "Patients -- all") (Some [PkEntry (Some "PAT_ID")])
    (Some [Column (Some "PAT_ID") (Some "INTEGER") (Some "id");
           Column (Some "PAT_NAME") (Some "VARCHAR") None]) [].

(** [tsv/PATIENT.tsv] has a column EXTRA the descriptor does not name
    and a second row whose PAT_ID does not fit 64 bits;
    [tsv/NOTES.tsv] has no descriptor. *)
Definition demo_sources : sources :=
  Sources ["PATIENT.tsv"; "README.md"; "NOTES.tsv"]
    (fun path =>
       if PyStr.eqb path "tsv/PATIENT.tsv" then
         Ok (TsvContent (Some ["PAT_ID"; "PAT_NAME"; "EXTRA"])
               [row_of [("PAT_ID", "123"); ("PAT_NAME", "Jane Doe");
                        ("EXTRA", "x")];
                row_of [("PAT_ID", "99999999999999999999");
                        ("PAT_NAME", "Big"); ("EXTRA", "")];
                row_of [("PAT_ID", "abc"); ("PAT_NAME", " ");
                        ("EXTRA", "y")]])
       else if PyStr.eqb path "tsv/NOTES.tsv" then
         Ok (TsvContent (Some ["ID"; "TXT" +:+ CR])
               [row_of [("ID", "1"); ("TXT" +:+ CR, "hello" +:+ CR)]])
       else Raise (Exn OSError "No such file or directory"))
    (fun path =>
       if PyStr.eqb path "schemas/PATIENT.json" then Json demo_schema
       else NoSchemaFile).

Definition one_row_file : result tsv_content :=
  Ok (TsvContent (Some ["ID"]) [row_of [("ID", "1")]]).

(** Two good files; the descriptor of the first is not JSON. *)
Definition bad_json_sources : sources :=
  Sources ["A.tsv"; "B.tsv"]
    (fun _ => one_row_file)
    (fun path =>
       if PyStr.eqb path "schemas/A.json"
       then BadJson "Expecting value: line 1 column 1 (char 0)"
       else NoSchemaFile).

(** The same two files with no descriptor at all. *)
Definition no_schema_sources : sources :=
  Sources ["A.tsv"; "B.tsv"] (fun _ => one_row_file) (fun _ => NoSchemaFile).

(** Two files, the base name of the second containing [.tsv] itself. *)
Definition repeated_suffix_sources : sources :=
  Sources ["A.tsv.tsv"; "A.tsv"]
    (fun path =>
       if PyStr.eqb path "tsv/A.tsv" then one_row_file
       else Ok (TsvContent (Some ["ID"]) [row_of [("ID", "2")]]))
    (fun _ => NoSchemaFile).

(** A batch whose second row cannot be bound. *)
Definition demo_batch : list (list pyval) :=
  [[VInt 1]; [VInt (2 ^ 70)]; [VInt 3]].

(** ** The error listing of the summary (lines 234-239)

    What [main] prints about the errors, one text per [print]. *)
Definition error_report (errors : list string) : list string :=
  if bool_decide (errors = []) then []
  else
    [LF +:+ "Errors (" +:+ pretty (length errors) +:+ "):"]
    ++ map (fun e => "  " +:+ e) (take 15 errors)
    ++ (if 15 <? length errors
        then ["  ... and " +:+ pretty (length errors - 15) +:+ " more"]
        else []).

(** ** Vocabulary of the further properties *)

(** A cleaned key and value: neither ends with a carriage return. *)
Definition cr_free (k : string) (v : option string) : Prop :=
  PyStr.endswith CR k = false
  /\ forall t, v = Some t -> PyStr.endswith CR t = false.

(** The order [sorted] sorts by. *)
Definition leb_true (a b : string) : Prop := String.leb a b = true.

(** The DDL line of the column at index [k] of [n_columns]. *)
Definition ddl_line (n_columns : nat) (no_pk : bool) (k : nat)
    (col : column) : string :=
  "  " +:+ quoted (default "" (col_name col)) +:+ " " +:+ column_type col
  +:+ (if (k =? n_columns - 1) && no_pk then "" else ",")
  +:+ " -- " +:+ esc (Some (default "" (col_description col))).

(** ** Further example inputs *)

(** A file whose second data line has one field too many. *)
Definition long_row_sources : sources :=
  Sources ["LONG.tsv"]
    (fun _ =>
       Ok (TsvContent (Some ["ID"])
             [row_of [("ID", "1")]; DictRow [("ID", Some "2")] ["x"]]))
    (fun _ => NoSchemaFile).

(** A descriptor whose second column has no name. *)
Definition unnamed_column_schema : schema :=
  Schema None None
    (Some [Column (Some "ID") (Some "INTEGER") None;
           Column None (Some "VARCHAR") None]) [].

(** A descriptor whose key entry has no [columnName]. *)
Definition unnamed_key_schema : schema :=
  Schema None (Some [PkEntry None])
    (Some [Column (Some "ID") (Some "INTEGER") None]) [].

Definition one_schema_sources (d : schema) : sources :=
  Sources ["T.tsv"] (fun _ => one_row_file) (fun _ => Json d).

(** * Properties *)

(** ** The value coercer *)

Section Coerce.

Import PyNum.

Lemma py_int_raises s e : py_int s = Raise e -> exn_kind_of e = ValueError.
Proof.
  unfold py_int. destruct (split_sign s) as [neg r].
  destruct (digitpart false r); intros H; inversion H; reflexivity.
Qed.

Lemma py_float_raises s e :
  py_float s = Raise e -> exn_kind_of e = ValueError.
Proof.
  unfold py_float. destruct (remove_underscores false s) as [t|].
  - destruct (split_sign t) as [neg r].
    destruct (PyStr.eqb (lower r) "inf" || PyStr.eqb (lower r) "infinity");
      [discriminate|].
    destruct (PyStr.eqb (lower r) "nan"); [discriminate|].
    destruct (parse_decimal neg r); intros H; inversion H; reflexivity.
  - intros H; inversion H; reflexivity.
Qed.

Lemma float_to_int_raises f e :
  float_to_int f = Raise e ->
  exn_kind_of e = ValueError \/ exn_kind_of e = OverflowError.
Proof.
  destruct f; simpl; intros H; inversion H; auto.
Qed.

(** [integral] says what it should: a finite float [m * 2^e] passes
    the test of line 119 exactly when it is a whole number. *)
Lemma integral_spec neg m e :
  integral (FFin neg m e) = true
  <-> (0 <= e)%Z \/ (Z.of_N m mod 2 ^ (- e) = 0)%Z.
Proof.
  unfold integral, float_to_int, float_eq_int.
  destruct (0 <=? e)%Z eqn:He.
  - apply Z.leb_le in He. split; [auto|]. intros _.
    destruct neg; apply Z.eqb_eq; lia.
  - apply Z.leb_gt in He.
    assert (Hp : (0 < 2 ^ (- e))%Z) by (apply Z.pow_pos_nonneg; lia).
    pose proof (Z.div_mod (Z.of_N m) (2 ^ (- e))) as Hdm.
    pose proof (Z.mod_pos_bound (Z.of_N m) (2 ^ (- e)) Hp) as Hb.
    destruct neg; rewrite Z.eqb_eq; split; intros H.
    + right. lia.
    + destruct H as [H|H]; lia.
    + right. lia.
    + destruct H as [H|H]; lia.
Qed.

Lemma coerce_integer_eq v :
  coerce (Some v) "INTEGER" =
  Ok (if PyStr.eqb (PyStr.strip v) "" then VNone
      else integer_branch (PyStr.strip v)).
Proof.
  unfold coerce, integer_branch.
  destruct (PyStr.eqb (PyStr.strip v) ""); [reflexivity|].
  change (PyStr.eqb "INTEGER" "INTEGER") with true. cbv iota.
  destruct (py_int (PyStr.strip v)) as [z|e] eqn:Hi; simpl; [reflexivity|].
  apply py_int_raises in Hi. destruct e as [k m]; simpl in Hi; subst k.
  simpl.
  destruct (py_float (PyStr.strip v)) as [f|e']; simpl; [|reflexivity].
  destruct (float_to_int f); reflexivity.
Qed.

Lemma coerce_numeric_eq v col_type :
  col_type = "NUMERIC" \/ col_type = "REAL" ->
  coerce (Some v) col_type =
  Ok (if PyStr.eqb (PyStr.strip v) "" then VNone
      else numeric_branch (PyStr.strip v)).
Proof.
  intros Hct. unfold coerce, numeric_branch, integral.
  destruct (PyStr.eqb (PyStr.strip v) ""); [reflexivity|].
  assert (PyStr.eqb col_type "INTEGER" = false) as ->
    by (destruct Hct; subst; reflexivity).
  assert (PyStr.eqb col_type "NUMERIC" || PyStr.eqb col_type "REAL" = true)
    as -> by (destruct Hct; subst; reflexivity).
  destruct (py_float (PyStr.strip v)) as [f|e] eqn:Hf; simpl.
  - destruct (float_to_int f) as [i|e] eqn:Hi; simpl.
    + destruct (float_eq_int f i && negb (PyStr.contains "." (PyStr.strip v)));
        reflexivity.
    + apply float_to_int_raises in Hi.
      destruct e as [k m]; simpl in Hi; destruct Hi; subst k; reflexivity.
  - apply py_float_raises in Hf.
    destruct e as [k m]; simpl in Hf; subst k; reflexivity.
Qed.

Lemma coerce_text_eq v col_type :
  col_type <> "INTEGER" -> col_type <> "NUMERIC" -> col_type <> "REAL" ->
  coerce (Some v) col_type =
  Ok (if PyStr.eqb (PyStr.strip v) "" then VNone
      else VText (PyStr.strip v)).
Proof.
  intros H1 H2 H3. unfold coerce, PyStr.eqb.
  rewrite (bool_decide_eq_false_2 (col_type = "INTEGER")) by assumption.
  rewrite (bool_decide_eq_false_2 (col_type = "NUMERIC")) by assumption.
  rewrite (bool_decide_eq_false_2 (col_type = "REAL")) by assumption.
  case_bool_decide; reflexivity.
Qed.

Lemma coerce_returns value col_type : exists r, coerce value col_type = Ok r.
Proof.
  destruct value as [v|]; [|exists VNone; reflexivity].
  destruct (decide (col_type = "INTEGER")) as [->|H1].
  { rewrite coerce_integer_eq. eauto. }
  destruct (decide (col_type = "NUMERIC")) as [->|H2].
  { rewrite coerce_numeric_eq by auto. eauto. }
  destruct (decide (col_type = "REAL")) as [->|H3].
  { rewrite coerce_numeric_eq by auto. eauto. }
  rewrite coerce_text_eq by assumption. eauto.
Qed.

End Coerce.

(** C5. [coerce] is total: for every raw cell value and every type
    category it returns a value or null and never raises; an absent cell
    and an empty text give null whatever the type category. *)
Theorem coerce_total (value : option string) (col_type : string) :
  (exists r, coerce value col_type = Ok r)
  /\ coerce None col_type = Ok VNone
  /\ coerce (Some "") col_type = Ok VNone.
Proof.
  split; [apply coerce_returns|]. split; reflexivity.
Qed.

(** C4. For an INTEGER column [coerce] trims the cell, reads it as a
    base-10 integer, failing that as a float converted to an integer,
    and failing that returns the trimmed text; it never raises.
    [coerce("  42  ", INTEGER)] is the integer 42 and
    [coerce("abc", INTEGER)] is the text "abc". *)
Theorem coerce_integer (v : string) :
  coerce (Some v) "INTEGER" =
    Ok (if PyStr.eqb (PyStr.strip v) "" then VNone
        else match PyNum.py_int (PyStr.strip v) with
             | Ok z => VInt z
             | Raise _ =>
                 match PyNum.py_float (PyStr.strip v) with
                 | Ok f =>
                     match PyNum.float_to_int f with
                     | Ok z => VInt z
                     | Raise _ => VText (PyStr.strip v)
                     end
                 | Raise _ => VText (PyStr.strip v)
                 end
             end)
  /\ coerce (Some "  42  ") "INTEGER" = Ok (VInt 42)
  /\ coerce (Some "abc") "INTEGER" = Ok (VText "abc")
  /\ coerce (Some "4.7") "INTEGER" = Ok (VInt 4).
Proof.
  split; [apply coerce_integer_eq|].
  repeat split; vm_compute; reflexivity.
Qed.

(** C2, as the code has it.  [coerce("3.0", NUMERIC)] is the float 3.0,
    not the integer 3: the text contains a decimal point. *)
Lemma coerce_3_0_is_float :
  coerce (Some "3.0") "NUMERIC" = Ok (VFloat (FFin false 3 0))
  /\ coerce (Some "3.0") "NUMERIC" <> Ok (VInt 3).
Proof.
  split; [vm_compute; reflexivity|].
  vm_compute. discriminate.
Qed.

(** C2, amended.  For a NUMERIC or REAL column [coerce] reads the trimmed
    cell as a float.  If that fails, or the float is an infinity or a
    NaN, it returns the trimmed text; if the float is integral and the
    text has no decimal point it returns the integer; otherwise it
    returns the float.  So "3" gives the integer 3, "3.0" the float 3.0
    and "3.50" the float 3.5. *)
Theorem coerce_numeric (v : string) :
  let t := PyStr.strip v in
  let r :=
    Ok (if PyStr.eqb t "" then VNone
        else match PyNum.py_float t with
             | Raise _ => VText t
             | Ok f =>
                 match PyNum.float_to_int f with
                 | Raise _ => VText t
                 | Ok i =>
                     if integral f && negb (PyStr.contains "." t)
                     then VInt i else VFloat f
                 end
             end) in
  coerce (Some v) "NUMERIC" = r
  /\ coerce (Some v) "REAL" = r
  /\ coerce (Some "3") "NUMERIC" = Ok (VInt 3)
  /\ coerce (Some "3.0") "NUMERIC" = Ok (VFloat (FFin false 3 0))
  /\ coerce (Some "3.50") "NUMERIC" = Ok (VFloat (FFin false 7 (-1)))
  /\ coerce (Some "inf") "REAL" = Ok (VText "inf").
Proof.
  cbv zeta. split; [apply coerce_numeric_eq; auto|].
  split; [apply coerce_numeric_eq; auto|].
  repeat split; vm_compute; reflexivity.
Qed.

(** ** The type mapper *)

(** C6. The type mapper sends VARCHAR to TEXT, NUMERIC to NUMERIC,
    INTEGER to INTEGER, FLOAT to REAL, DATETIME and its three variants to
    TEXT, and every other label, the empty and the absent one included,
    to TEXT; it is defined on every label. *)
Theorem type_mapper (label : string) :
  map_type "VARCHAR" = "TEXT"
  /\ map_type "NUMERIC" = "NUMERIC"
  /\ map_type "INTEGER" = "INTEGER"
  /\ map_type "FLOAT" = "REAL"
  /\ map_type "DATETIME" = "TEXT"
  /\ map_type "DATETIME (Local)" = "TEXT"
  /\ map_type "DATETIME (UTC)" = "TEXT"
  /\ map_type "DATETIME (Attached)" = "TEXT"
  /\ map_type "" = "TEXT"
  /\ (forall name desc, column_type (Column name None desc) = "TEXT")
  /\ map_type label =
       (if decide (label = "NUMERIC") then "NUMERIC"
        else if decide (label = "INTEGER") then "INTEGER"
        else if decide (label = "FLOAT") then "REAL"
        else "TEXT").
Proof.
  do 9 (split; [vm_compute; reflexivity|]).
  split; [intros; vm_compute; reflexivity|].
  unfold map_type, dict_get, TYPE_MAP.
  rewrite !lookup_insert, lookup_empty.
  repeat case_decide; subst; try reflexivity; congruence.
Qed.

(** ** The table definer *)

Lemma column_loop_spec n no_pk cols :
  forall i defs names defs' names',
    column_loop n no_pk i cols defs names = Ok (defs', names') ->
    exists lines cnames,
      defs' = defs ++ lines
      /\ names' = names ++ cnames
      /\ col_name <$> cols = Some <$> cnames
      /\ Forall2 line_defines cols lines.
Proof.
  induction cols as [|col rest IH]; intros i defs names defs' names' H.
  - simpl in H. inversion H; subst. exists [], [].
    rewrite !app_nil_r. repeat split; constructor.
  - simpl in H. destruct (col_name col) as [cname|] eqn:Hn; [|discriminate].
    simpl in H. apply IH in H as (lines & cnames & -> & -> & Hnames & Hlines).
    eexists (_ :: lines), (cname :: cnames).
    rewrite <- !app_assoc. repeat split.
    + rewrite !fmap_cons, Hn, Hnames. reflexivity.
    + constructor; [|exact Hlines].
      eexists cname, _. split; [exact Hn|]. split; [|reflexivity].
      destruct ((i =? n - 1) && no_pk); auto.
Qed.

(** When every column and key entry is named, the script is built. *)
Lemma mapM_subscript_ok {A} (f : A -> option string) key l names :
  f <$> l = Some <$> names ->
  mapM (fun a => subscript (f a) key) l = Ok names.
Proof.
  revert names. induction l as [|a l IH]; intros [|n names] H;
    try discriminate; [reflexivity|].
  simpl in H. injection H as Ha Hl. simpl. rewrite Ha. simpl.
  rewrite (IH _ Hl). reflexivity.
Qed.

Lemma column_loop_ok n no_pk cols cnames :
  col_name <$> cols = Some <$> cnames ->
  forall i defs names,
    exists defs', column_loop n no_pk i cols defs names
                  = Ok (defs', names ++ cnames).
Proof.
  revert cnames. induction cols as [|col rest IH]; intros [|c cnames] H;
    try discriminate; intros i defs names.
  - simpl. rewrite app_nil_r. eauto.
  - simpl in H. injection H as Hc Hrest. simpl. rewrite Hc. simpl.
    replace (names ++ c :: cnames) with ((names ++ [c]) ++ cnames)
      by (rewrite <- app_assoc; reflexivity).
    apply IH. exact Hrest.
Qed.

Section TableDefiner.

Context {conn : Type}.
Variable executescript : conn -> string -> conn * option exn.
Variable execute : conn -> string -> list pyval -> conn * option exn.

(** A descriptor whose columns and key entries are all named defines
    its table whenever sqlite accepts the script. *)
Lemma create_table_returns (c : conn) name d cnames pk_names :
  col_name <$> get_columns d = Some <$> cnames ->
  columnName <$> get_primaryKey d = Some <$> pk_names ->
  exists script,
    create_table_script name d = Ok (script, cnames)
    /\ create_table conn executescript c name d =
         (fst (executescript c script),
          match snd (executescript c script) with
          | None => Ok cnames
          | Some e => Raise e
          end).
Proof.
  intros Hc Hp. unfold create_table, create_table_script.
  rewrite (mapM_subscript_ok _ _ _ _ Hp). simpl.
  destruct (column_loop_ok (length (get_columns d))
              (bool_decide (pk_names = [])) _ _ Hc 0 [] []) as [defs Hd].
  rewrite Hd. simpl. eexists. split; [reflexivity|].
  destruct (executescript c _) as [c' [e|]]; reflexivity.
Qed.

Lemma create_table_spec (c c' : conn) name d cols :
  create_table conn executescript c name d = (c', Ok cols) ->
  col_name <$> get_columns d = Some <$> cols
  /\ exists lines pk,
       Forall2 line_defines (get_columns d) lines
       /\ executescript c
            ("DROP TABLE IF EXISTS " +:+ quoted name +:+ ";" +:+ LF
             +:+ "CREATE TABLE " +:+ quoted name +:+ " ( -- "
             +:+ esc (Some (default "" (description d))) +:+ LF
             +:+ PyStr.join LF lines +:+ pk +:+ LF +:+ ");")
          = (c', None).
Proof.
  intros H. unfold create_table in H.
  destruct (create_table_script name d) as [[script names]|e] eqn:Hs;
    [|discriminate].
  destruct (executescript c script) as [c2 [e|]] eqn:He; [discriminate|].
  inversion H; subst c2 names. clear H.
  unfold create_table_script in Hs.
  destruct (mapM _ (get_primaryKey d)) as [pk_cols|e]; [|discriminate].
  simpl in Hs.
  destruct (column_loop _ _ 0 (get_columns d) [] [])
    as [[defs names]|e] eqn:Hl; [|discriminate].
  simpl in Hs. inversion Hs; subst script cols. clear Hs.
  apply column_loop_spec in Hl
    as (lines & cnames & -> & -> & Hnames & Hlines).
  simpl. split; [exact Hnames|].
  eexists lines, _. split; [exact Hlines|]. exact He.
Qed.

(** C7. The column list the table definer returns is, with a
    descriptor, the descriptor's column names in the descriptor's
    order, and the lines of the DDL define these columns in that same
    order; without one, it is the file's header, and the statement run
    creates every header column, in order, as TEXT and nothing else
    (no primary key). *)
Theorem table_definer_columns (c c' : conn) (name : string)
    (schema : option schema) (header cols : list string) :
  define_table conn executescript execute c name schema header
    = (c', Ok cols) ->
  match schema with
  | Some d =>
      if schema_truthy d then
        col_name <$> get_columns d = Some <$> cols
        /\ exists lines pk,
             Forall2 line_defines (get_columns d) lines
             /\ executescript c
                  ("DROP TABLE IF EXISTS " +:+ quoted name +:+ ";" +:+ LF
                   +:+ "CREATE TABLE " +:+ quoted name +:+ " ( -- "
                   +:+ esc (Some (default "" (description d))) +:+ LF
                   +:+ PyStr.join LF lines +:+ pk +:+ LF +:+ ");")
                = (c', None)
      else cols = header
  | None => cols = header
  end
  /\ (truthy schema = false ->
      exists c1,
        execute c ("DROP TABLE IF EXISTS " +:+ quoted name) [] = (c1, None)
        /\ execute c1
             ("CREATE TABLE " +:+ quoted name +:+ " ("
              +:+ PyStr.join ", " (map (fun h => quoted h +:+ " TEXT") header)
              +:+ ")") []
           = (c', None)).
Proof.
  intros H.
  assert (Hhdr : forall c0,
    create_table_from_header conn execute c0 name header = (c', Ok cols) ->
    cols = header
    /\ exists c1,
        execute c0 ("DROP TABLE IF EXISTS " +:+ quoted name) [] = (c1, None)
        /\ execute c1
             ("CREATE TABLE " +:+ quoted name +:+ " ("
              +:+ PyStr.join ", " (map (fun h => quoted h +:+ " TEXT") header)
              +:+ ")") []
           = (c', None)).
  { intros c0 Hc. unfold create_table_from_header in Hc.
    fold (header_drop_sql name). fold (header_create_sql name header).
    destruct (execute c0 (header_drop_sql name) []) as [c1 [e|]];
      [discriminate|].
    destruct (execute c1 (header_create_sql name header) [])
      as [c2 [e|]] eqn:H2; [discriminate|].
    inversion Hc; subst. split; [reflexivity|]. exists c1. auto. }
  unfold define_table in H. destruct schema as [d|]; simpl.
  - destruct (schema_truthy d) eqn:Ht.
    + split; [|discriminate]. apply create_table_spec. exact H.
    + destruct (Hhdr c H) as [-> Hex]. split; [reflexivity|].
      intros _. exact Hex.
  - destruct (Hhdr c H) as [-> Hex]. split; [reflexivity|].
    intros _. exact Hex.
Qed.

End TableDefiner.

(** ** The tuples of a batch *)

Lemma row_values_spec col_types cols row :
  exists values,
    row_values col_types cols row = Ok values
    /\ Forall2 (fun col v =>
                  coerce (dict_get row col (Some ""))
                         (dict_get col_types col "TEXT") = Ok v
                  /\ (row !! col = None -> v = VNone))
               cols values.
Proof.
  unfold row_values. induction cols as [|col rest (vs & Hvs & Hall)].
  - exists []. split; [reflexivity|constructor].
  - destruct (coerce_returns (dict_get row col (Some ""))
                (dict_get col_types col "TEXT")) as [v Hv].
    exists (v :: vs). simpl. rewrite Hv. simpl. rewrite Hvs. simpl.
    split; [reflexivity|]. constructor; [|exact Hall].
    split; [exact Hv|]. intros Hnone.
    unfold dict_get in Hv at 1. rewrite Hnone in Hv. simpl in Hv.
    change (coerce (Some "") (dict_get col_types col "TEXT"))
      with (Ok (A := pyval) VNone) in Hv.
    congruence.
Qed.

Lemma row_values_delete col_types cols row k :
  k ∉ cols ->
  row_values col_types cols (delete k row) = row_values col_types cols row.
Proof.
  unfold row_values. induction cols as [|col rest IH]; intros Hk;
    [reflexivity|].
  apply not_elem_of_cons in Hk as [Hne Hk].
  simpl. rewrite (IH Hk). unfold dict_get at 1 4.
  rewrite lookup_delete_ne by assumption. reflexivity.
Qed.

Lemma build_batch_spec col_types cols rows :
  exists batch,
    build_batch col_types cols rows = Ok batch
    /\ Forall2 (fun row values =>
                  Forall2 (fun col v =>
                             coerce (dict_get row col (Some ""))
                                    (dict_get col_types col "TEXT") = Ok v
                             /\ (row !! col = None -> v = VNone))
                          cols values)
               rows batch.
Proof.
  unfold build_batch. induction rows as [|row rest (b & Hb & Hall)].
  - exists []. split; [reflexivity|constructor].
  - destruct (row_values_spec col_types cols row) as (vs & Hvs & Hrow).
    exists (vs :: b). simpl. rewrite Hvs. simpl. rewrite Hb. simpl.
    split; [reflexivity|]. constructor; assumption.
Qed.

Lemma build_batch_delete col_types cols rows k :
  k ∉ cols ->
  build_batch col_types cols (delete k <$> rows)
  = build_batch col_types cols rows.
Proof.
  intros Hk. unfold build_batch. induction rows as [|row rest IH];
    [reflexivity|].
  rewrite fmap_cons. simpl. rewrite IH, (row_values_delete _ _ _ _ Hk).
  reflexivity.
Qed.

Lemma col_types_loop_ok cols cnames :
  col_name <$> cols = Some <$> cnames ->
  forall acc, exists col_types, col_types_loop cols acc = Ok col_types.
Proof.
  revert cnames. induction cols as [|col rest IH]; intros [|c cnames] H acc;
    try discriminate.
  - exists acc. reflexivity.
  - rewrite !fmap_cons in H. injection H as Hc Hrest.
    simpl. rewrite Hc. simpl. eapply IH. exact Hrest.
Qed.

(** ** The bulk loader *)

Section BulkLoader.

Context {conn : Type}.
Variable executescript : conn -> string -> conn * option exn.
Variable execute : conn -> string -> list pyval -> conn * option exn.
Variable executemany :
  conn -> string -> list (list pyval) -> conn * option exn.
Variable src : sources.

Local Abbreviation fallback_loop := (fallback_loop conn execute).
Local Abbreviation row_outcomes := (row_outcomes conn execute).
Local Abbreviation insert_batch := (insert_batch conn execute executemany).
Local Abbreviation process_table :=
  (process_table conn executescript execute executemany src).
Local Abbreviation main_loop :=
  (main_loop conn executescript execute executemany src).
Local Abbreviation per_table_inserted :=
  (per_table_inserted conn executescript execute executemany src).

Lemma row_outcomes_length sql batch :
  forall c, length (fst (row_outcomes sql c batch)) = length batch.
Proof.
  induction batch as [|v rest IH]; intros c; simpl; [reflexivity|].
  destruct (execute c sql v) as [c' r].
  specialize (IH c'). destruct (row_outcomes sql c' rest) as [outs c''].
  simpl in *. congruence.
Qed.

(** Past row 0, or once a row went in, the loop adds no message. *)
Lemma fallback_loop_later sql name batch :
  forall c i inserted errs,
    0 < i ->
    fallback_loop sql name c i inserted errs batch =
      (snd (row_outcomes sql c batch),
       inserted + successes (fst (row_outcomes sql c batch)),
       errs).
Proof.
  induction batch as [|v rest IH]; intros c i inserted errs Hi; simpl.
  - f_equal. f_equal. unfold successes. simpl. lia.
  - destruct (execute c sql v) as [c' [e|]].
    + replace ((inserted =? 0) && (i =? 0)) with false
        by (destruct i; [lia|]; rewrite andb_false_r; reflexivity).
      rewrite (IH c' (S i) inserted errs) by lia.
      destruct (row_outcomes sql c' rest) as [outs c'']. simpl.
      unfold successes. rewrite filter_cons_False by discriminate.
      reflexivity.
    + rewrite (IH c' (S i) (S inserted) errs) by lia.
      destruct (row_outcomes sql c' rest) as [outs c'']. simpl.
      unfold successes. rewrite filter_cons_True by reflexivity.
      simpl. f_equal. f_equal. lia.
Qed.

Lemma fallback_loop_spec sql name batch c errs :
  fallback_loop sql name c 0 0 errs batch =
    (snd (row_outcomes sql c batch),
     successes (fst (row_outcomes sql c batch)),
     errs ++ row_0_error name (fst (row_outcomes sql c batch))).
Proof.
  destruct batch as [|v rest]; simpl.
  - rewrite app_nil_r. reflexivity.
  - destruct (execute c sql v) as [c' [e|]]; simpl.
    + rewrite fallback_loop_later by lia.
      destruct (row_outcomes sql c' rest) as [outs c'']. simpl.
      unfold successes. rewrite filter_cons_False by discriminate.
      reflexivity.
    + rewrite fallback_loop_later by lia.
      destruct (row_outcomes sql c' rest) as [outs c'']. simpl.
      unfold successes. rewrite filter_cons_True by reflexivity.
      rewrite app_nil_r. reflexivity.
Qed.

(** C3, amended.  When the bulk insert raises, every row of the batch
    is tried on its own, in order, whatever happened to the rows
    before it; the rows that went in are added to the total; and the
    error list gains the message of row 0 if row 0 failed, and nothing
    otherwise: a failure of any later row leaves no entry. *)
Theorem fallback_records_row_0_only (st : run_state conn) (c c' : conn)
    (e : exn) (insert_sql name : string) (batch : list (list pyval)) :
  executemany c insert_sql batch = (c', Some e) ->
  let outs := fst (row_outcomes insert_sql c' batch) in
  length outs = length batch
  /\ insert_batch st c insert_sql name batch =
       RunState (snd (row_outcomes insert_sql c' batch))
                (if 0 <? successes outs then tables_ok st + 1
                 else tables_ok st)
                (total_rows st + successes outs)
                (errors st ++ row_0_error name outs).
Proof.
  intros Hm outs. split; [apply row_outcomes_length|].
  unfold insert_batch. rewrite Hm, fallback_loop_spec. reflexivity.
Qed.

(** *** The counters only grow *)

Lemma fallback_loop_errors sql name batch :
  forall c i inserted e errs,
    fallback_loop sql name c i inserted (e ++ errs) batch =
      let '(c', n, errs') := fallback_loop sql name c i inserted errs batch in
      (c', n, e ++ errs').
Proof.
  induction batch as [|v rest IH]; intros c i inserted e errs; simpl;
    [reflexivity|].
  destruct (execute c sql v) as [c' [e2|]]; [|apply IH].
  destruct ((inserted =? 0) && (i =? 0)); [|apply IH].
  rewrite <- app_assoc. apply IH.
Qed.

Lemma insert_batch_shift a b e st c sql name batch :
  insert_batch (shift conn a b e st) c sql name batch =
    shift conn a b e (insert_batch st c sql name batch).
Proof.
  unfold insert_batch, shift. simpl.
  destruct (executemany c sql batch) as [c' [ex|]]; simpl.
  - rewrite fallback_loop_errors.
    destruct (fallback_loop sql name c' 0 0 (errors st) batch)
      as [[c'' n] errs']. simpl.
    destruct (0 <? n); f_equal; lia.
  - f_equal; lia.
Qed.

(** The load of a table reads the counters only to add to them. *)
Lemma process_table_shift a b e st tsv_file :
  process_table (shift conn a b e st) tsv_file =
    fmap_result (shift conn a b e) (process_table st tsv_file).
Proof.
  unfold process_table.
  destruct (load_schema src _) as [schema|ex]; simpl; [|reflexivity].
  destruct (load_tsv_rows src _) as [[header rows]|ex]; simpl;
    [|reflexivity].
  case_bool_decide.
  { simpl. unfold shift. simpl. rewrite <- app_assoc. reflexivity. }
  destruct (build_col_types schema) as [col_types|ex]; simpl;
    [|reflexivity].
  destruct (define_table _ _ _ (db st) _ schema header) as [c [cols|ex]].
  - case_bool_decide.
    + simpl. unfold shift. simpl. f_equal. f_equal. lia.
    + destruct (build_batch col_types cols rows) as [batch|ex]; simpl;
        [|reflexivity].
      f_equal. apply insert_batch_shift.
  - simpl. unfold shift. simpl. rewrite <- app_assoc. reflexivity.
Qed.

Lemma shift_zero (st : run_state conn) :
  st = shift conn (tables_ok st) (total_rows st) (errors st)
         (RunState (db st) 0 0 []).
Proof.
  destruct st as [c a b e]. unfold shift. simpl.
  rewrite !Nat.add_0_r, app_nil_r. reflexivity.
Qed.

(** One table adds at most one to the count of tables OK. *)
Lemma process_table_ok_le st tsv_file st' :
  process_table st tsv_file = Ok st' ->
  tables_ok st' <= tables_ok st + 1.
Proof.
  unfold process_table.
  destruct (load_schema src _) as [schema|ex]; simpl; [|discriminate].
  destruct (load_tsv_rows src _) as [[header rows]|ex]; simpl;
    [|discriminate].
  case_bool_decide.
  { intros H'; inversion H'; subst; simpl; lia. }
  destruct (build_col_types schema) as [col_types|ex]; simpl;
    [|discriminate].
  destruct (define_table _ _ _ (db st) _ schema header) as [c [cols|ex]].
  - case_bool_decide.
    + intros H'; inversion H'; subst; simpl; lia.
    + destruct (build_batch col_types cols rows) as [batch|ex]; simpl;
        [|discriminate].
      intros H'; inversion H'; subst. unfold insert_batch.
      destruct (executemany c _ batch) as [c' [ex|]]; simpl; [|lia].
      destruct (fallback_loop _ _ _ _ _ _ _) as [[c'' n] errs'].
      simpl. destruct (0 <? n); lia.
  - intros H'; inversion H'; subst; simpl; lia.
Qed.

Lemma main_loop_totals files :
  forall st st',
    main_loop st files = Ok st' ->
    total_rows st' =
      total_rows st + sum_list (per_table_inserted (db st) files)
    /\ length (per_table_inserted (db st) files) = length files
    /\ tables_ok st' <= tables_ok st + length files.
Proof.
  induction files as [|f rest IH]; intros st st' H; simpl in H.
  - inversion H; subst. simpl. lia.
  - destruct (process_table st f) as [st1|ex] eqn:H1; [|discriminate].
    simpl in H. apply IH in H as (Ht & Hl & Hk).
    pose proof (process_table_ok_le _ _ _ H1) as Hle.
    rewrite (shift_zero st), process_table_shift in H1.
    simpl. destruct (process_table (RunState (db st) 0 0 []) f)
      as [s0|ex]; [|discriminate].
    simpl in H1. inversion H1; subst st1. simpl in *.
    repeat split; lia.
Qed.


(** C10. With a descriptor, the tuple inserted for a row has one value
    per descriptor column, in the descriptor's order: the coerced cell
    the row holds under that name, null when the row holds none.  A
    column of the file that the descriptor does not name is in no
    tuple: the batch is the same with that column removed from every
    row. *)
Theorem schema_mode_tuples (st : run_state conn) (tsv_file : string)
    (d : schema) (header : list string)
    (rows : list (gmap string (option string)))
    (c : conn) (cols : list string) :
  let name := PyStr.replace ".tsv" "" tsv_file in
  load_schema src name = Ok (Some d) ->
  schema_truthy d = true ->
  load_tsv_rows src (path_join TSV_DIR tsv_file) = Ok (header, rows) ->
  header <> [] ->
  rows <> [] ->
  create_table conn executescript (db st) name d = (c, Ok cols) ->
  exists col_types batch,
    build_col_types (Some d) = Ok col_types
    /\ process_table st tsv_file =
         Ok (insert_batch st c (insert_statement name cols) name batch)
    /\ col_name <$> get_columns d = Some <$> cols
    /\ Forall2 (fun row values =>
                  Forall2 (fun col v =>
                             coerce (dict_get row col (Some ""))
                               (dict_get col_types col "TEXT") = Ok v
                             /\ (row !! col = None -> v = VNone))
                          cols values)
               rows batch
    /\ (forall k, k ∉ cols ->
          build_batch col_types cols (delete k <$> rows) = Ok batch).
Proof.
  intros name Hs Ht Hr Hh Hrows Hc.
  destruct (create_table_spec _ _ _ _ _ _ Hc) as [Hnames _].
  destruct (col_types_loop_ok _ _ Hnames ∅) as [col_types Hct].
  destruct (build_batch_spec col_types cols rows) as (batch & Hb & Hall).
  exists col_types, batch.
  assert (Hbt : build_col_types (Some d) = Ok col_types).
  { simpl. rewrite Ht. exact Hct. }
  split; [exact Hbt|]. split.
  - unfold process_table. fold name. rewrite Hs. simpl. rewrite Hr. simpl.
    rewrite bool_decide_eq_false_2 by assumption.
    rewrite Ht, Hct. simpl. rewrite Hc.
    rewrite bool_decide_eq_false_2 by assumption.
    rewrite Hb. reflexivity.
  - split; [exact Hnames|]. split; [exact Hall|].
    intros k Hk. rewrite build_batch_delete by assumption. exact Hb.
Qed.

End BulkLoader.

(** ** The run on the example inputs *)

Lemma table_definer_columns_witness :
  exists c',
    define_table RefStore.conn RefStore.executescript RefStore.execute
      [] "PATIENT" (Some demo_schema) ["PAT_ID"; "PAT_NAME"; "EXTRA"]
    = (c', Ok ["PAT_ID"; "PAT_NAME"])
    /\ col_name <$> get_columns demo_schema = Some <$> ["PAT_ID"; "PAT_NAME"].
Proof.
  pose (r := define_table RefStore.conn RefStore.executescript
               RefStore.execute [] "PATIENT" (Some demo_schema)
               ["PAT_ID"; "PAT_NAME"; "EXTRA"]).
  assert (H : r = (fst r, Ok ["PAT_ID"; "PAT_NAME"]))
    by (vm_compute; reflexivity).
  exists (fst r). split; [exact H|].
  exact (proj1 (proj1 (table_definer_columns _ _ _ _ _ _ _ _ H))).
Defined.

(** C3, as the code has it.  The bulk insert of [demo_batch] fails on its
    second row; the fallback inserts rows 0 and 2, row 1 fails again, and
    the error list stays empty: the first failing row is not row 0, so
    its message is not recorded. *)
Lemma first_failure_after_row_0_unrecorded :
  let sql := insert_statement "T" ["ID"] in
  let st := insert_batch RefStore.conn RefStore.execute RefStore.executemany
              (RunState [] 0 0 []) [] sql "T" demo_batch in
  snd (RefStore.executemany [] sql demo_batch) = Some RefStore.too_large
  /\ fst (row_outcomes RefStore.conn RefStore.execute sql
            (fst (RefStore.executemany [] sql demo_batch)) demo_batch)
     = [None; Some RefStore.too_large; None]
  /\ errors st = []
  /\ total_rows st = 2
  /\ tables_ok st = 1.
Proof.
  vm_compute. repeat split; reflexivity.
Qed.

Lemma fallback_records_row_0_only_witness :
  let sql := insert_statement "T" ["ID"] in
  let st := insert_batch RefStore.conn RefStore.execute RefStore.executemany
              (RunState [] 0 0 []) [] sql "T" demo_batch in
  errors st = [] /\ total_rows st = 2.
Proof.
  intros sql st.
  pose (c' := fst (RefStore.executemany [] sql demo_batch)).
  assert (H : RefStore.executemany [] sql demo_batch
              = (c', Some RefStore.too_large)) by (vm_compute; reflexivity).
  destruct (fallback_records_row_0_only RefStore.execute RefStore.executemany
              (RunState [] 0 0 []) [] c' RefStore.too_large sql "T"
              demo_batch H) as [_ Heq].
  subst st. rewrite Heq. vm_compute. split; reflexivity.
Defined.


Lemma schema_mode_tuples_witness :
  exists col_types batch,
    build_col_types (Some demo_schema) = Ok col_types
    /\ RefStore.process_table demo_sources (RunState [] 0 0 []) "PATIENT.tsv"
       = Ok (insert_batch RefStore.conn RefStore.execute RefStore.executemany
               (RunState [] 0 0 [])
               (fst (create_table RefStore.conn RefStore.executescript []
                       "PATIENT" demo_schema))
               (insert_statement "PATIENT" ["PAT_ID"; "PAT_NAME"])
               "PATIENT" batch)
    /\ batch = [[VInt 123; VText "Jane Doe"];
                [VInt 99999999999999999999; VText "Big"];
                [VText "abc"; VNone]].
Proof.
  pose (hr := load_tsv_rows demo_sources (path_join TSV_DIR "PATIENT.tsv")).
  pose (rows := match hr with Ok (_, rows) => rows | Raise _ => [] end).
  pose (c := fst (create_table RefStore.conn RefStore.executescript []
                    "PATIENT" demo_schema)).
  destruct (schema_mode_tuples RefStore.executescript RefStore.execute
              RefStore.executemany demo_sources (RunState [] 0 0 [])
              "PATIENT.tsv" demo_schema ["PAT_ID"; "PAT_NAME"; "EXTRA"]
              rows c ["PAT_ID"; "PAT_NAME"])
    as (col_types & batch & Hct & Hp & _ & Hall & Hdrop).
  - vm_compute; reflexivity.
  - vm_compute; reflexivity.
  - vm_compute; reflexivity.
  - discriminate.
  - vm_compute; discriminate.
  - vm_compute; reflexivity.
  - exists col_types, batch. split; [exact Hct|]. split; [exact Hp|].
    specialize (Hdrop "EXTRA").
    assert (Hk : "EXTRA" ∉ ["PAT_ID"; "PAT_NAME"]).
    { intros Hin. apply list_elem_of_In in Hin. simpl in Hin.
      destruct Hin as [Hin|[Hin|[]]]; discriminate. }
    specialize (Hdrop Hk). vm_compute in Hct. inversion Hct; subst col_types.
    vm_compute in Hdrop. inversion Hdrop. reflexivity.
Defined.

(** ** The run against a descriptor that is not JSON *)

Section Abort.

Context {conn : Type}.
Variable executescript : conn -> string -> conn * option exn.
Variable execute : conn -> string -> list pyval -> conn * option exn.
Variable executemany :
  conn -> string -> list (list pyval) -> conn * option exn.
Variable src : sources.

(** [load_schema] is called outside every [try] (line 145): what
    [json.load] raises leaves the loop body. *)
Lemma bad_json_leaves_process_table (st : run_state conn) tsv_file msg :
  open_schema src
    (path_join SCHEMA_DIR (PyStr.replace ".tsv" "" tsv_file +:+ ".json"))
    = BadJson msg ->
  process_table conn executescript execute executemany src st tsv_file
    = Raise (Exn JSONDecodeError msg).
Proof.
  intros H. unfold process_table, load_schema. rewrite H. reflexivity.
Qed.

(** And with it [main]: the files after that one are never loaded. *)
Lemma bad_json_leaves_main_loop (st : run_state conn) tsv_file rest msg :
  open_schema src
    (path_join SCHEMA_DIR (PyStr.replace ".tsv" "" tsv_file +:+ ".json"))
    = BadJson msg ->
  main_loop conn executescript execute executemany src st
    (tsv_file :: rest)
    = Raise (Exn JSONDecodeError msg).
Proof.
  intros H. simpl. rewrite (bad_json_leaves_process_table _ _ _ H).
  reflexivity.
Qed.

End Abort.

(** C1, as the code has it.  With two good source files and a descriptor
    for the first that is not JSON, the run does not record an error and
    go on to the second table: the exception of [json.load] leaves
    [main], nothing is counted and no table is created.  Without the
    bad descriptor both tables load. *)
Theorem malformed_descriptor_aborts_run :
  RefStore.main bad_json_sources []
    = Raise (Exn JSONDecodeError "Expecting value: line 1 column 1 (char 0)")
  /\ (forall st, RefStore.main bad_json_sources [] <> Ok st)
  /\ exists st, RefStore.main no_schema_sources [] = Ok st
                /\ tables_ok st = 2 /\ total_rows st = 2 /\ errors st = [].
Proof.
  assert (H : RefStore.main bad_json_sources []
              = Raise (Exn JSONDecodeError
                         "Expecting value: line 1 column 1 (char 0)")).
  { unfold RefStore.main, main.
    change (tsv_files bad_json_sources) with ["A.tsv"; "B.tsv"].
    apply bad_json_leaves_main_loop. reflexivity. }
  split; [exact H|]. split.
  - intros st Hst. rewrite H in Hst. discriminate.
  - eexists. split; [vm_compute; reflexivity|].
    repeat split; reflexivity.
Qed.

(** ** Table names *)

(** C8, as the code has it.  The table name is the file name with every
    [.tsv] in it removed, not only the extension: the file [A.tsv.tsv],
    whose base name is [A.tsv], is loaded into the table [A], where it
    replaces the table just loaded from [A.tsv]. *)
Theorem table_name_drops_every_tsv :
  PyStr.replace ".tsv" "" "A.tsv.tsv" = "A"
  /\ PyStr.replace ".tsv" "" "PATIENT_2.tsv" = "PATIENT_2"
  /\ tsv_files repeated_suffix_sources = ["A.tsv"; "A.tsv.tsv"]
  /\ exists st,
       RefStore.main repeated_suffix_sources [] = Ok st
       /\ db st = [(header_drop_sql "A", []);
                   (header_create_sql "A" ["ID"], []);
                   (insert_statement "A" ["ID"], [VText "1"]);
                   (header_drop_sql "A", []);
                   (header_create_sql "A" ["ID"], []);
                   (insert_statement "A" ["ID"], [VText "2"])].
Proof.
  do 3 (split; [vm_compute; reflexivity|]).
  eexists. split; vm_compute; reflexivity.
Qed.


(** ** Table names without an inner [.tsv] *)

Lemma append_cons c s t : String c s +:+ t = String c (s +:+ t).
Proof. reflexivity. Qed.

Lemma startswith_tsv_app c r :
  PyStr.startswith ".tsv" (String c r) = false ->
  PyStr.startswith ".tsv" (String c (r +:+ ".tsv")) = false.
Proof.
  destruct r as [|c2 [|c3 [|c4 r4]]]; rewrite ?append_cons;
    cbn [PyStr.startswith];
    repeat match goal with
           | |- context [?a =? PyStr.code ?x] =>
               is_var x; destruct (a =? PyStr.code x); cbn [andb]
           end;
    auto.
Qed.

(** For a base name that does not contain [.tsv], the name computed at
    line 143 is the base name. *)
Lemma table_name_plain (name : string) :
  PyStr.contains ".tsv" name = false ->
  PyStr.replace ".tsv" "" (name +:+ ".tsv") = name.
Proof.
  unfold PyStr.replace. induction name as [|c r IH]; intros H.
  - reflexivity.
  - cbn [PyStr.contains] in H. apply orb_false_elim in H as [Hs Hc].
    rewrite append_cons. cbn [PyStr.replace_from].
    rewrite (startswith_tsv_app _ _ Hs), (IH Hc). reflexivity.
Qed.

(** * Further properties of the loader *)

(** ** Text replacement and [esc] *)

Lemma contains_char_cons x c r :
  PyStr.contains (String x "") (String c r)
  = (PyStr.code x =? PyStr.code c) || PyStr.contains (String x "") r.
Proof.
  cbn [PyStr.contains PyStr.startswith]. rewrite andb_true_r. reflexivity.
Qed.

Lemma contains_char_app x s t :
  PyStr.contains (String x "") (s +:+ t)
  = PyStr.contains (String x "") s || PyStr.contains (String x "") t.
Proof.
  induction s as [|c r IH].
  - change ("" +:+ t) with t. destruct t; reflexivity.
  - rewrite append_cons, !contains_char_cons, IH, orb_assoc. reflexivity.
Qed.

(** Replacing never brings in a character that neither the text nor the
    replacement has. *)
Lemma replace_from_keeps_absent old new x :
  PyStr.contains (String x "") new = false ->
  forall s skip,
    PyStr.contains (String x "") s = false ->
    PyStr.contains (String x "") (PyStr.replace_from old new skip s) = false.
Proof.
  intros Hnew. induction s as [|c r IH]; intros skip Hs; [reflexivity|].
  rewrite contains_char_cons in Hs. apply orb_false_elim in Hs as [Hc Hr].
  cbn [PyStr.replace_from]. destruct skip as [|k]; [|apply IH; exact Hr].
  destruct (PyStr.startswith old (String c r)).
  - rewrite contains_char_app, Hnew. apply IH. exact Hr.
  - rewrite contains_char_cons, Hc. apply IH. exact Hr.
Qed.

(** Replacing a character by a text without it removes it. *)
Lemma replace_char_removes x new :
  PyStr.contains (String x "") new = false ->
  forall s,
    PyStr.contains (String x "") (PyStr.replace (String x "") new s) = false.
Proof.
  intros Hnew. unfold PyStr.replace. induction s as [|c r IH]; [reflexivity|].
  cbn [PyStr.replace_from PyStr.startswith String.length Nat.sub].
  rewrite andb_true_r. destruct (PyStr.code x =? PyStr.code c) eqn:Hc.
  - rewrite contains_char_app, Hnew. exact IH.
  - rewrite contains_char_cons, Hc. exact IH.
Qed.

(** A text without the pattern is left as it is. *)
Lemma replace_absent old new s :
  PyStr.contains old s = false -> PyStr.replace old new s = s.
Proof.
  unfold PyStr.replace. induction s as [|c r IH]; intros H; [reflexivity|].
  cbn [PyStr.contains] in H. apply orb_false_elim in H as [Hs Hr].
  cbn [PyStr.replace_from]. rewrite Hs, (IH Hr). reflexivity.
Qed.

(** X1. Whatever the description, [esc] returns a text with no line
    feed and no carriage return in it: a description cannot end the SQL
    comment it is written into. *)
Theorem esc_has_no_line_break (text : option string) :
  PyStr.contains LF (esc text) = false
  /\ PyStr.contains CR (esc text) = false.
Proof.
  destruct text as [t|]; [|split; reflexivity].
  unfold esc. destruct (PyStr.eqb t ""); [split; reflexivity|].
  split.
  - apply replace_from_keeps_absent; [reflexivity|].
    apply replace_char_removes. reflexivity.
  - apply replace_char_removes. reflexivity.
Qed.

(** X2. A description with no double hyphen, no line feed and no
    carriage return goes through [esc] unchanged. *)
Theorem esc_keeps_plain_text (t : string) :
  PyStr.contains "--" t = false ->
  PyStr.contains LF t = false ->
  PyStr.contains CR t = false ->
  esc (Some t) = t.
Proof.
  intros Hd Hl Hc. unfold esc. destruct (PyStr.eqb t "") eqn:He.
  - unfold PyStr.eqb in He. apply bool_decide_eq_true_1 in He. auto.
  - rewrite (replace_absent "--" _ _ Hd), (replace_absent LF _ _ Hl).
    apply replace_absent. exact Hc.
Qed.

Lemma esc_keeps_plain_text_witness :
  esc (Some "Patient identifier - internal") = "Patient identifier - internal".
Proof.
  apply esc_keeps_plain_text; reflexivity.
Defined.

Lemma startswith_dashes c r :
  PyStr.startswith "--" (String c r)
  = (PyStr.code "-" =? PyStr.code c) && PyStr.startswith "-" r.
Proof. reflexivity. Qed.

Lemma dashes_prefix s :
  PyStr.contains "--" (DASHES +:+ s) = PyStr.contains "--" s.
Proof. reflexivity. Qed.

Lemma replace_dashes_head r :
  PyStr.startswith "-" (PyStr.replace "--" DASHES r) = true ->
  PyStr.startswith "-" r = true.
Proof.
  destruct r as [|c r]; [discriminate|].
  unfold PyStr.replace. cbn [PyStr.replace_from].
  destruct (PyStr.startswith "--" (String c r)); [discriminate|].
  cbn [PyStr.startswith]. auto.
Qed.

Lemma replace_dashes_leaves_none n :
  forall s,
    String.length s <= n ->
    PyStr.contains "--" (PyStr.replace "--" DASHES s) = false.
Proof.
  induction n as [|n IH]; intros [|c r] Hn; try reflexivity;
    cbn [String.length] in Hn; [lia|].
  unfold PyStr.replace. cbn [PyStr.replace_from].
  destruct (PyStr.startswith "--" (String c r)) eqn:Hs.
  - destruct r as [|c2 r2].
    { cbn [PyStr.startswith] in Hs. rewrite andb_false_r in Hs.
      discriminate. }
    cbn [String.length Nat.sub PyStr.replace_from].
    rewrite dashes_prefix. apply IH. cbn [String.length] in Hn. lia.
  - cbn [PyStr.contains]. fold (PyStr.replace "--" DASHES r).
    rewrite (IH r) by lia. rewrite orb_false_r.
    rewrite startswith_dashes in Hs |- *.
    destruct (PyStr.code "-" =? PyStr.code c); [|reflexivity].
    cbn [andb] in Hs |- *.
    destruct (PyStr.startswith "-" (PyStr.replace "--" DASHES r)) eqn:Hd;
      [|reflexivity].
    apply replace_dashes_head in Hd. congruence.
Qed.

Lemma replace_lf_cons c r :
  PyStr.replace LF " " (String c r)
  = String (if PyStr.code (PyStr.byte 10) =? PyStr.code c then " "%char
            else c)
           (PyStr.replace LF " " r).
Proof.
  unfold PyStr.replace, LF.
  cbn [PyStr.replace_from PyStr.startswith String.length Nat.sub].
  rewrite andb_true_r.
  destruct (PyStr.code (PyStr.byte 10) =? PyStr.code c); reflexivity.
Qed.

Lemma replace_lf_head r :
  PyStr.startswith "-" (PyStr.replace LF " " r) = PyStr.startswith "-" r.
Proof.
  destruct r as [|c r]; [reflexivity|].
  rewrite replace_lf_cons. cbn [PyStr.startswith].
  destruct (PyStr.code (PyStr.byte 10) =? PyStr.code c) eqn:Hc;
    [|reflexivity].
  apply Nat.eqb_eq in Hc. rewrite <- Hc. reflexivity.
Qed.

Lemma replace_lf_brings_no_dashes s :
  PyStr.contains "--" s = false ->
  PyStr.contains "--" (PyStr.replace LF " " s) = false.
Proof.
  induction s as [|c r IH]; intros H; [reflexivity|].
  cbn [PyStr.contains] in H. apply orb_false_elim in H as [Hs Hr].
  rewrite replace_lf_cons. cbn [PyStr.contains].
  rewrite (IH Hr), orb_false_r, startswith_dashes, replace_lf_head.
  rewrite startswith_dashes in Hs.
  destruct (PyStr.code (PyStr.byte 10) =? PyStr.code c); [reflexivity|].
  exact Hs.
Qed.

(** X3. For a description with no carriage return in it, the result of
    [esc] contains no double hyphen. *)
Theorem esc_has_no_double_hyphen (t : string) :
  PyStr.contains CR t = false ->
  PyStr.contains "--" (esc (Some t)) = false.
Proof.
  intros Hc. unfold esc. destruct (PyStr.eqb t ""); [reflexivity|].
  rewrite (replace_absent CR).
  - apply replace_lf_brings_no_dashes.
    apply (replace_dashes_leaves_none (String.length t)). lia.
  - apply replace_from_keeps_absent; [reflexivity|].
    apply replace_from_keeps_absent; [reflexivity|]. exact Hc.
Qed.

Lemma esc_has_no_double_hyphen_witness :
  PyStr.contains "--" (esc (Some "a -- b --- c ---- d")) = false.
Proof.
  apply esc_has_no_double_hyphen. reflexivity.
Defined.

(** ** The row reader *)

Lemma drop_while_cr_head rs :
  match PyStr.drop_while_cr rs with
  | [] => True
  | c :: _ => (PyStr.code c =? 13) = false
  end.
Proof.
  induction rs as [|c r IH]; [exact I|].
  cbn [PyStr.drop_while_cr]. destruct (PyStr.code c =? 13) eqn:Hc;
    [exact IH|exact Hc].
Qed.

Lemma startswith_cr_of_list l :
  PyStr.startswith CR (string_of_list_ascii l)
  = match l with
    | [] => false
    | c :: _ => PyStr.code c =? 13
    end.
Proof.
  destruct l as [|c l]; [reflexivity|].
  unfold CR. cbn [string_of_list_ascii PyStr.startswith].
  rewrite andb_true_r. apply Nat.eqb_sym.
Qed.

Lemma endswith_cr_spec s :
  PyStr.endswith CR s
  = match rev (list_ascii_of_string s) with
    | [] => false
    | c :: _ => PyStr.code c =? 13
    end.
Proof.
  unfold PyStr.endswith.
  change (string_of_list_ascii (rev (list_ascii_of_string CR))) with CR.
  apply startswith_cr_of_list.
Qed.

(** What [rstrip('\r')] returns does not end with a carriage return. *)
Lemma rstrip_cr_clean s : PyStr.endswith CR (PyStr.rstrip_cr s) = false.
Proof.
  rewrite endswith_cr_spec. unfold PyStr.rstrip_cr.
  rewrite list_ascii_of_string_of_list_ascii, rev_involutive.
  pose proof (drop_while_cr_head (rev (list_ascii_of_string s))) as H.
  destruct (PyStr.drop_while_cr (rev (list_ascii_of_string s)));
    [reflexivity|exact H].
Qed.

(** And a text that does not end with one is returned as it is. *)
Lemma rstrip_cr_id s : PyStr.endswith CR s = false -> PyStr.rstrip_cr s = s.
Proof.
  rewrite endswith_cr_spec. unfold PyStr.rstrip_cr. intros H.
  destruct (rev (list_ascii_of_string s)) as [|c l] eqn:Hr.
  - cbn [PyStr.drop_while_cr]. rewrite <- Hr, rev_involutive.
    apply string_of_list_ascii_of_string.
  - cbn [PyStr.drop_while_cr]. rewrite H, <- Hr, rev_involutive.
    apply string_of_list_ascii_of_string.
Qed.

Lemma mapM_Forall2 {A B} (f : A -> result B) l l' :
  mapM f l = Ok l' -> Forall2 (fun a b => f a = Ok b) l l'.
Proof.
  revert l'. induction l as [|a l IH]; intros l' H; simpl in H.
  - inversion H. constructor.
  - destruct (f a) as [b|e] eqn:Ha; [|discriminate]. simpl in H.
    destruct (mapM f l) as [bs|e]; [|discriminate]. simpl in H.
    inversion H; subst. constructor; auto.
Qed.

Lemma mapM_raises {A B} (f : A -> result B) e l :
  (forall a e', f a = Raise e' -> e' = e) ->
  Exists (fun a => f a = Raise e) l ->
  mapM f l = Raise e.
Proof.
  intros Hone. induction 1 as [a l Ha|a l Hex IH]; simpl.
  - rewrite Ha. reflexivity.
  - destruct (f a) as [b|e'] eqn:Ha.
    + simpl. rewrite IH. reflexivity.
    + rewrite (Hone _ _ Ha). reflexivity.
Qed.

Lemma clean_items_cr_free items :
  forall cleaned,
    map_Forall cr_free cleaned ->
    map_Forall cr_free (clean_items items cleaned).
Proof.
  induction items as [|[k v] rest IH]; intros cleaned Hc; [exact Hc|].
  cbn [clean_items]. apply IH. apply map_Forall_insert_2; [|exact Hc].
  split.
  - unfold PyStr.eqb. case_bool_decide; [subst; reflexivity|].
    apply rstrip_cr_clean.
  - intros t Ht. destruct v as [t0|]; [|discriminate].
    unfold PyStr.eqb in Ht. case_bool_decide.
    + inversion Ht; subst. reflexivity.
    + inversion Ht; subst. apply rstrip_cr_clean.
Qed.

Lemma clean_header_length header :
  length (clean_header header) = length header.
Proof.
  induction header as [|h [|h' rest] IH]; [reflexivity..|].
  change (clean_header (h :: h' :: rest))
    with (h :: clean_header (h' :: rest)).
  cbn [length] in *. rewrite IH. reflexivity.
Qed.

Lemma clean_header_last header :
  match last (clean_header header) with
  | Some h => PyStr.endswith CR h = false
  | None => header = []
  end.
Proof.
  induction header as [|h [|h' rest] IH]; [reflexivity| |].
  - cbn [clean_header last].
    destruct (PyStr.endswith CR h) eqn:He; [apply rstrip_cr_clean|exact He].
  - change (clean_header (h :: h' :: rest))
      with (h :: clean_header (h' :: rest)).
    destruct (clean_header (h' :: rest)) as [|x xs] eqn:Hx.
    + apply (f_equal length) in Hx. rewrite clean_header_length in Hx.
      discriminate.
    + change (last (h :: x :: xs)) with (last (x :: xs)).
      destruct (last (x :: xs)); [exact IH|discriminate].
Qed.

(** X4. Whatever [load_tsv_rows] returns is free of trailing carriage
    returns: no key and no value of a row mapping ends with one, nor
    does the last header field; and there is one mapping per data line
    and one header field per field name. *)
Theorem load_tsv_rows_cr_free (src : sources) (tsv_path : string)
    (header : list string) (rows : list (gmap string (option string))) :
  load_tsv_rows src tsv_path = Ok (header, rows) ->
  exists content,
    open_tsv src tsv_path = Ok content
    /\ length header = length (default [] (fieldnames content))
    /\ length rows = length (reader_rows content)
    /\ Forall (map_Forall cr_free) rows
    /\ match last header with
       | Some h => PyStr.endswith CR h = false
       | None => header = []
       end.
Proof.
  unfold load_tsv_rows. intros H.
  destruct (open_tsv src tsv_path) as [content|e]; [|discriminate].
  simpl in H.
  destruct (mapM clean_row (reader_rows content)) as [rs|e] eqn:Hm;
    [|discriminate].
  simpl in H. inversion H; subst header rows. clear H.
  exists content. split; [reflexivity|].
  apply mapM_Forall2 in Hm.
  split; [apply clean_header_length|].
  split; [symmetry; eapply Forall2_length; exact Hm|].
  split.
  - induction Hm as [|row cleaned l l' Hrow _ IH]; constructor; [|exact IH].
    unfold clean_row in Hrow. destruct (row_rest row); [|discriminate].
    inversion Hrow. apply clean_items_cr_free. apply map_Forall_empty.
  - pose proof (clean_header_last (default [] (fieldnames content))) as Hl.
    destruct (last (clean_header (default [] (fieldnames content))))
      as [h|] eqn:Hh; [exact Hl|].
    rewrite Hl. reflexivity.
Qed.

Lemma load_tsv_rows_cr_free_witness :
  exists header rows,
    load_tsv_rows demo_sources "tsv/NOTES.tsv" = Ok (header, rows)
    /\ header = ["ID"; "TXT"]
    /\ Forall (map_Forall cr_free) rows.
Proof.
  pose (r := load_tsv_rows demo_sources "tsv/NOTES.tsv").
  pose (rows := match r with Ok (_, rows) => rows | Raise _ => [] end).
  assert (H : r = Ok (["ID"; "TXT"], rows)) by (vm_compute; reflexivity).
  exists ["ID"; "TXT"], rows. split; [exact H|]. split; [reflexivity|].
  destruct (load_tsv_rows_cr_free _ _ _ _ H) as (_ & _ & _ & _ & Hall & _).
  exact Hall.
Defined.

Lemma clean_items_lookup_other items :
  forall cleaned k,
    Forall (fun kv => PyStr.endswith CR (fst kv) = false) items ->
    k ∉ fst <$> items ->
    clean_items items cleaned !! k = cleaned !! k.
Proof.
  induction items as [|[k0 v0] rest IH]; intros cleaned k Hcr Hk;
    [reflexivity|].
  rewrite fmap_cons in Hk. apply not_elem_of_cons in Hk as [Hne Hk].
  inversion Hcr as [|? ? Hk0 Hrest]; subst. simpl in Hk0, Hne.
  cbn [clean_items]. rewrite (IH _ _ Hrest Hk).
  rewrite (rstrip_cr_id _ Hk0).
  assert ((if PyStr.eqb k0 "" then k0 else k0) = k0) as ->
    by (destruct (PyStr.eqb k0 ""); reflexivity).
  apply lookup_insert_ne. congruence.
Qed.

Lemma clean_items_lookup items :
  forall cleaned k v,
    NoDup (fst <$> items) ->
    Forall (fun kv => PyStr.endswith CR (fst kv) = false) items ->
    (k, v) ∈ items ->
    clean_items items cleaned !! k = Some (PyStr.rstrip_cr <$> v).
Proof.
  induction items as [|[k0 v0] rest IH]; intros cleaned k v Hnd Hcr Hin.
  - apply elem_of_nil in Hin. destruct Hin.
  - rewrite fmap_cons in Hnd. apply NoDup_cons in Hnd as [Hk0 Hnd].
    inversion Hcr as [|? ? Hcr0 Hrest]; subst. simpl in Hcr0, Hk0.
    cbn [clean_items].
    apply elem_of_cons in Hin as [Heq|Hin]; [|apply IH; assumption].
    inversion Heq; subst k0 v0. clear Heq.
    rewrite (clean_items_lookup_other _ _ _ Hrest Hk0).
    rewrite (rstrip_cr_id _ Hcr0).
    assert ((if PyStr.eqb k "" then k else k) = k) as ->
      by (destruct (PyStr.eqb k ""); reflexivity).
    rewrite lookup_insert_eq. f_equal.
    destruct v as [t|]; [|reflexivity].
    unfold PyStr.eqb. case_bool_decide; [subst; reflexivity|reflexivity].
Qed.

(** X5. For a data line no longer than the header, whose field names
    are distinct and end with no carriage return, the cleaned mapping
    holds under every field name the value read for it, without its
    trailing carriage returns (and [None] where the line was short). *)
Theorem clean_row_lookup (row : dict_row)
    (cleaned : gmap string (option string)) (k : string)
    (v : option string) :
  clean_row row = Ok cleaned ->
  NoDup (fst <$> row_items row) ->
  Forall (fun kv => PyStr.endswith CR (fst kv) = false) (row_items row) ->
  (k, v) ∈ row_items row ->
  cleaned !! k = Some (PyStr.rstrip_cr <$> v).
Proof.
  unfold clean_row. intros H Hnd Hcr Hin.
  destruct (row_rest row); [|discriminate]. inversion H; subst cleaned.
  apply clean_items_lookup; assumption.
Qed.

(** ** What leaves the loop, and what the counters account for *)

Lemma col_types_loop_raises cols :
  forall acc e,
    col_types_loop cols acc = Raise e ->
    e = Exn KeyError "'name'"
    /\ Exists (fun col => col_name col = None) cols.
Proof.
  induction cols as [|col rest IH]; intros acc e H; [discriminate|].
  cbn [col_types_loop] in H. destruct (col_name col) as [cname|] eqn:Hn.
  - simpl in H. apply IH in H as [-> Hex]. split; [reflexivity|].
    apply Exists_cons_tl. exact Hex.
  - simpl in H. inversion H. split; [reflexivity|].
    apply Exists_cons_hd. exact Hn.
Qed.

Lemma col_types_loop_unnamed cols :
  Exists (fun col => col_name col = None) cols ->
  forall acc, col_types_loop cols acc = Raise (Exn KeyError "'name'").
Proof.
  induction 1 as [col rest Hn|col rest Hex IH]; intros acc;
    cbn [col_types_loop].
  - rewrite Hn. reflexivity.
  - destruct (col_name col); simpl; [apply IH|reflexivity].
Qed.

Lemma build_batch_length col_types cols rows batch :
  build_batch col_types cols rows = Ok batch -> length batch = length rows.
Proof.
  intros H. apply mapM_Forall2 in H. symmetry. eapply Forall2_length.
  exact H.
Qed.

Section RunInvariants.

Context {conn : Type}.
Variable executescript : conn -> string -> conn * option exn.
Variable execute : conn -> string -> list pyval -> conn * option exn.
Variable executemany :
  conn -> string -> list (list pyval) -> conn * option exn.
Variable src : sources.

Local Abbreviation process_table :=
  (process_table conn executescript execute executemany src).
Local Abbreviation main_loop :=
  (main_loop conn executescript execute executemany src).


(** X7. A data line with more fields than the header makes the row
    reader raise [AttributeError], and the loop body with it: the run
    ends there, whatever the other lines and files hold. *)
Theorem long_row_leaves_process_table (st : run_state conn)
    (tsv_file : string) (schema : option schema) (content : tsv_content) :
  let name := PyStr.replace ".tsv" "" tsv_file in
  let e := Exn AttributeError "'list' object has no attribute 'rstrip'" in
  load_schema src name = Ok schema ->
  open_tsv src (path_join TSV_DIR tsv_file) = Ok content ->
  Exists (fun row => row_rest row <> []) (reader_rows content) ->
  load_tsv_rows src (path_join TSV_DIR tsv_file) = Raise e
  /\ process_table st tsv_file = Raise e
  /\ forall rest, main_loop st (tsv_file :: rest) = Raise e.
Proof.
  intros name e Hs Ho Hex.
  assert (Hl : load_tsv_rows src (path_join TSV_DIR tsv_file) = Raise e).
  { unfold load_tsv_rows. rewrite Ho. simpl.
    rewrite (mapM_raises clean_row e); [reflexivity| |].
    - intros row e' Hr. unfold clean_row in Hr.
      destruct (row_rest row); [discriminate|]. inversion Hr. reflexivity.
    - eapply Exists_impl; [exact Hex|]. intros row Hr. unfold clean_row.
      destruct (row_rest row) eqn:Er; [congruence|reflexivity]. }
  assert (Hp : process_table st tsv_file = Raise e).
  { unfold process_table. fold name. rewrite Hs. simpl.
    rewrite Hl. reflexivity. }
  split; [exact Hl|]. split; [exact Hp|].
  intros rest. simpl. rewrite Hp. reflexivity.
Qed.

(** X8. With a descriptor one of whose columns has no name, and a file
    that has a header, the [KeyError] is raised while the column types
    are collected, before the guarded table creation: it leaves the
    loop body and ends the run, and nothing is recorded. *)
Theorem unnamed_column_leaves_process_table (st : run_state conn)
    (tsv_file : string) (d : schema) (header : list string)
    (rows : list (gmap string (option string))) :
  let name := PyStr.replace ".tsv" "" tsv_file in
  load_schema src name = Ok (Some d) ->
  schema_truthy d = true ->
  Exists (fun col => col_name col = None) (get_columns d) ->
  load_tsv_rows src (path_join TSV_DIR tsv_file) = Ok (header, rows) ->
  header <> [] ->
  process_table st tsv_file = Raise (Exn KeyError "'name'").
Proof.
  intros name Hs Ht Hex Hl Hh.
  unfold process_table. fold name. rewrite Hs. simpl.
  rewrite Hl. simpl. rewrite bool_decide_eq_false_2 by assumption.
  rewrite Ht, (col_types_loop_unnamed _ Hex). reflexivity.
Qed.

(** X9. With a descriptor whose columns are all named but one of whose
    primary-key entries has no [columnName], table creation fails
    before any statement is run: the connection is untouched, the error
    is recorded for that table and the loop goes on. *)
Theorem unnamed_key_is_recorded (st : run_state conn)
    (tsv_file : string) (d : schema) (header cnames : list string)
    (rows : list (gmap string (option string))) :
  let name := PyStr.replace ".tsv" "" tsv_file in
  load_schema src name = Ok (Some d) ->
  schema_truthy d = true ->
  col_name <$> get_columns d = Some <$> cnames ->
  Exists (fun p => columnName p = None) (get_primaryKey d) ->
  load_tsv_rows src (path_join TSV_DIR tsv_file) = Ok (header, rows) ->
  header <> [] ->
  process_table st tsv_file =
    Ok (RunState (db st) (tables_ok st) (total_rows st)
          (errors st ++ [name +:+ ": CREATE failed: 'columnName'"])).
Proof.
  intros name Hs Ht Hn Hex Hl Hh.
  unfold process_table. fold name. rewrite Hs. simpl.
  rewrite Hl. simpl. rewrite bool_decide_eq_false_2 by assumption.
  rewrite Ht. destruct (col_types_loop_ok _ _ Hn ∅) as [col_types Hct].
  rewrite Hct. simpl. rewrite ?Ht. unfold create_table, create_table_script.
  rewrite (mapM_raises _ (Exn KeyError "'columnName'")); [reflexivity| |].
  - intros p e' Hp. destruct (columnName p); [discriminate|].
    inversion Hp. reflexivity.
  - eapply Exists_impl; [exact Hex|]. intros p Hp. rewrite Hp. reflexivity.
Qed.

Lemma process_table_accounts (st st' : run_state conn) tsv_file :
  process_table st tsv_file = Ok st' ->
  exists new,
    errors st' = errors st ++ new
    /\ length new <= 1
    /\ tables_ok st <= tables_ok st'
    /\ tables_ok st + 1 <= tables_ok st' + length new.
Proof.
  unfold process_table.
  destruct (load_schema src _) as [schema|ex]; simpl; [|discriminate].
  destruct (load_tsv_rows src _) as [[header rows]|ex]; simpl;
    [|discriminate].
  case_bool_decide.
  { intros H'; inversion H'; subst; simpl. eexists. split; [reflexivity|].
    simpl. lia. }
  destruct (build_col_types schema) as [col_types|ex]; simpl;
    [|discriminate].
  destruct (define_table _ _ _ (db st) _ schema header) as [c [cols|ex]].
  - case_bool_decide as Hrows.
    + intros H'; inversion H'; subst; simpl. exists [].
      rewrite app_nil_r. simpl. repeat split; lia.
    + destruct (build_batch col_types cols rows) as [batch|ex] eqn:Hb;
        simpl; [|discriminate].
      intros H'; inversion H'; subst st'. clear H'.
      apply build_batch_length in Hb. unfold insert_batch.
      destruct (executemany c _ batch) as [c' [ex|]]; simpl.
      * rewrite fallback_loop_spec.
        pose proof (row_outcomes_length execute
                      (insert_statement (PyStr.replace ".tsv" "" tsv_file)
                         cols) batch c') as Hlen.
        destruct (row_outcomes conn execute _ c' batch) as [outs c''].
        simpl in *. destruct outs as [|[e2|] outs'].
        -- destruct rows; [contradiction|]. simpl in *. lia.
        -- eexists. split; [reflexivity|]. simpl.
           destruct (0 <? _); lia.
        -- exists []. split; [reflexivity|].
           unfold successes. rewrite filter_cons_True by reflexivity.
           simpl. lia.
      * exists []. rewrite app_nil_r. simpl. repeat split; lia.
  - intros H'; inversion H'; subst; simpl. eexists. split; [reflexivity|].
    simpl. lia.
Qed.

(** X10. Every file of a run that ends is accounted for: the error list
    only grows, by at most one entry per file, and each file adds to the
    tables OK or to the error list (or to both). *)
Theorem every_file_is_accounted_for (files : list string)
    (st st' : run_state conn) :
  main_loop st files = Ok st' ->
  exists new,
    errors st' = errors st ++ new
    /\ length new <= length files
    /\ tables_ok st <= tables_ok st'
    /\ tables_ok st + length files <= tables_ok st' + length new.
Proof.
  revert st. induction files as [|f rest IH]; intros st H; simpl in H.
  - inversion H; subst. exists []. rewrite app_nil_r. simpl.
    repeat split; lia.
  - destruct (process_table st f) as [st1|ex] eqn:H1; [|discriminate].
    simpl in H. apply IH in H as (new2 & He2 & Hl2 & Hk2 & Ha2).
    apply process_table_accounts in H1 as (new1 & He1 & Hl1 & Hk1 & Ha1).
    exists (new1 ++ new2). rewrite He2, He1, <- app_assoc.
    split; [reflexivity|]. rewrite length_app. simpl. repeat split; lia.
Qed.

End RunInvariants.

(** ** More on the value coercer *)

(** What [coerce] returns for a cell whose trimmed text [t] is not
    empty, whatever the type category. *)
Lemma coerce_cases v col_type :
  PyStr.strip v <> "" ->
  coerce (Some v) col_type = Ok (integer_branch (PyStr.strip v))
                             /\ col_type = "INTEGER"
  \/ coerce (Some v) col_type = Ok (numeric_branch (PyStr.strip v))
     /\ (col_type = "NUMERIC" \/ col_type = "REAL")
  \/ coerce (Some v) col_type = Ok (VText (PyStr.strip v))
     /\ col_type <> "INTEGER" /\ col_type <> "NUMERIC"
     /\ col_type <> "REAL".
Proof.
  intros Ht.
  assert (Hb : PyStr.eqb (PyStr.strip v) "" = false)
    by (apply bool_decide_eq_false_2; exact Ht).
  destruct (decide (col_type = "INTEGER")) as [->|H1].
  { left. rewrite coerce_integer_eq, Hb. auto. }
  destruct (decide (col_type = "NUMERIC")) as [->|H2].
  { right; left. rewrite coerce_numeric_eq, Hb by auto. auto. }
  destruct (decide (col_type = "REAL")) as [->|H3].
  { right; left. rewrite coerce_numeric_eq, Hb by auto. auto. }
  right; right. rewrite coerce_text_eq, Hb by assumption. auto.
Qed.

Lemma integer_branch_cases t :
  (exists z, integer_branch t = VInt z) \/ integer_branch t = VText t.
Proof.
  unfold integer_branch. destruct (PyNum.py_int t); [eauto|].
  destruct (PyNum.py_float t) as [f|]; [|auto].
  destruct (PyNum.float_to_int f); eauto.
Qed.

Lemma numeric_branch_cases t :
  (exists z, numeric_branch t = VInt z)
  \/ (exists neg m e, numeric_branch t = VFloat (FFin neg m e))
  \/ numeric_branch t = VText t.
Proof.
  unfold numeric_branch. destruct (PyNum.py_float t) as [f|]; [|auto].
  destruct f as [|neg|neg m e]; simpl; auto.
  destruct (integral (FFin neg m e) && negb (PyStr.contains "." t)); eauto 6.
Qed.

(** X11. [coerce] returns null exactly for an absent cell and for a
    cell that is empty once trimmed: no other text, whatever the type
    category, is turned into null. *)
Theorem coerce_null_iff_blank (value : option string) (col_type : string) :
  coerce value col_type = Ok VNone
  <-> value = None \/ exists v, value = Some v /\ PyStr.strip v = "".
Proof.
  split.
  - destruct value as [v|]; [|auto]. intros H. right. exists v.
    split; [reflexivity|].
    destruct (decide (PyStr.strip v = "")) as [|Ht]; [assumption|].
    exfalso.
    destruct (coerce_cases v col_type Ht) as [[Hc _]|[[Hc _]|[Hc _]]];
      rewrite Hc in H; inversion H as [Hv].
    + destruct (integer_branch_cases (PyStr.strip v)) as [[z Hz]|Hz];
        congruence.
    + destruct (numeric_branch_cases (PyStr.strip v))
        as [[z Hz]|[(neg & m & e & Hz)|Hz]]; congruence.
  - intros [->|(v & -> & Hv)]; [reflexivity|].
    unfold coerce. rewrite Hv. reflexivity.
Qed.

(** X12. A text [coerce] returns is the trimmed cell, and is never
    empty: failed conversions pass the trimmed text through, and an
    empty string is never inserted. *)
Theorem coerce_text_is_trimmed (v s col_type : string) :
  coerce (Some v) col_type = Ok (VText s) ->
  s = PyStr.strip v /\ s <> "".
Proof.
  intros H.
  destruct (decide (PyStr.strip v = "")) as [Ht|Ht].
  { unfold coerce in H. rewrite Ht in H. discriminate. }
  destruct (coerce_cases v col_type Ht) as [[Hc _]|[[Hc _]|[Hc _]]];
    rewrite Hc in H; inversion H as [Hv].
  - destruct (integer_branch_cases (PyStr.strip v)) as [[z Hz]|Hz];
      rewrite Hz in Hv; [discriminate|]. inversion Hv; subst. auto.
  - destruct (numeric_branch_cases (PyStr.strip v))
      as [[z Hz]|[(neg & m & e & Hz)|Hz]];
      rewrite Hz in Hv; try discriminate. inversion Hv; subst. auto.
  - auto.
Qed.

Lemma coerce_text_is_trimmed_witness :
  coerce (Some " n/a ") "INTEGER" = Ok (VText "n/a")
  /\ "n/a" = PyStr.strip " n/a " /\ "n/a" <> "".
Proof.
  assert (H : coerce (Some " n/a ") "INTEGER" = Ok (VText "n/a"))
    by (vm_compute; reflexivity).
  split; [exact H|]. exact (coerce_text_is_trimmed _ _ _ H).
Defined.

(** X13. The kind of value follows the type category: a number is
    returned only for an INTEGER, NUMERIC or REAL column, a float only
    for a NUMERIC or REAL one, and a float returned is finite, never an
    infinity or a NaN. *)
Theorem coerce_kind_follows_type (value : option string)
    (col_type : string) (r : pyval) :
  coerce value col_type = Ok r ->
  match r with
  | VInt _ =>
      col_type = "INTEGER" \/ col_type = "NUMERIC" \/ col_type = "REAL"
  | VFloat f =>
      (col_type = "NUMERIC" \/ col_type = "REAL")
      /\ exists neg m e, f = FFin neg m e
  | VNone | VText _ => True
  end.
Proof.
  intros H. destruct value as [v|]; [|inversion H; exact I].
  destruct (decide (PyStr.strip v = "")) as [Ht|Ht].
  { unfold coerce in H. rewrite Ht in H. inversion H. exact I. }
  destruct (coerce_cases v col_type Ht)
    as [[Hc Hty]|[[Hc Hty]|[Hc Hty]]];
    rewrite Hc in H; inversion H as [Hv]; clear H.
  - destruct (integer_branch_cases (PyStr.strip v)) as [[z Hz]|Hz];
      rewrite Hz; auto.
  - destruct (numeric_branch_cases (PyStr.strip v))
      as [[z Hz]|[(neg & m & e & Hz)|Hz]]; rewrite Hz; eauto 7.
  - exact I.
Qed.

Lemma coerce_kind_follows_type_witness :
  coerce (Some "2.5") "REAL" = Ok (VFloat (FFin false 5 (-1)))
  /\ ("REAL" = "NUMERIC" \/ "REAL" = "REAL").
Proof.
  assert (H : coerce (Some "2.5") "REAL" = Ok (VFloat (FFin false 5 (-1))))
    by (vm_compute; reflexivity).
  split; [exact H|]. exact (proj1 (coerce_kind_follows_type _ _ _ H)).
Defined.

(** ** The order of the run *)

Lemma insert_sorted_perm f l : insert_sorted f l ≡ₚ f :: l.
Proof.
  induction l as [|g rest IH]; [reflexivity|].
  cbn [insert_sorted]. destruct (String.leb f g); [reflexivity|].
  rewrite IH. apply Permutation_swap.
Qed.

Lemma sorted_perm l : sorted l ≡ₚ l.
Proof.
  induction l as [|f rest IH]; [reflexivity|].
  unfold sorted in *. cbn [fold_right].
  rewrite insert_sorted_perm, IH. reflexivity.
Qed.

Lemma insert_sorted_hd f g l :
  leb_true g f -> HdRel leb_true g l -> HdRel leb_true g (insert_sorted f l).
Proof.
  intros Hgf Hl. destruct l as [|h rest]; cbn [insert_sorted].
  - constructor. exact Hgf.
  - destruct (String.leb f h); constructor; [exact Hgf|].
    inversion Hl. assumption.
Qed.

Lemma insert_sorted_Sorted f l :
  Sorted leb_true l -> Sorted leb_true (insert_sorted f l).
Proof.
  induction 1 as [|g rest Hs IH Hhd]; cbn [insert_sorted].
  - repeat constructor.
  - destruct (String.leb f g) eqn:Hfg.
    + constructor; [constructor; assumption|]. constructor. exact Hfg.
    + constructor; [exact IH|]. apply insert_sorted_hd; [|exact Hhd].
      destruct (String.leb_total f g) as [H|H]; [congruence|exact H].
Qed.

Lemma sorted_Sorted l : Sorted leb_true (sorted l).
Proof.
  induction l as [|f rest IH]; [constructor|].
  unfold sorted in *. cbn [fold_right]. apply insert_sorted_Sorted.
  exact IH.
Qed.

(** X14. The files of a run are the entries of the directory whose
    name ends with [.tsv], each as often as the listing has it, in
    ascending order of name. *)
Theorem tsv_files_sorted (src : sources) :
  Sorted leb_true (tsv_files src)
  /\ tsv_files src
     ≡ₚ filter (fun f => PyStr.endswith ".tsv" f = true) (listdir src)
  /\ forall f,
       f ∈ tsv_files src
       <-> f ∈ listdir src /\ PyStr.endswith ".tsv" f = true.
Proof.
  unfold tsv_files. split; [apply sorted_Sorted|].
  split; [apply sorted_perm|].
  intros f. rewrite sorted_perm, list_elem_of_filter. tauto.
Qed.

(** ** Column types and the lines of the DDL *)

Lemma col_types_loop_other cols :
  forall acc col_types n,
    col_types_loop cols acc = Ok col_types ->
    Some n ∉ col_name <$> cols ->
    col_types !! n = acc !! n.
Proof.
  induction cols as [|col rest IH]; intros acc col_types n H Hn.
  - inversion H. reflexivity.
  - rewrite fmap_cons in Hn. apply not_elem_of_cons in Hn as [Hne Hn].
    cbn [col_types_loop] in H.
    destruct (col_name col) as [c|]; [|discriminate]. simpl in H.
    rewrite (IH _ _ _ H Hn). apply lookup_insert_ne. congruence.
Qed.

Lemma col_types_loop_lookup cols :
  forall acc col_types col n,
    col_types_loop cols acc = Ok col_types ->
    NoDup (col_name <$> cols) ->
    col ∈ cols ->
    col_name col = Some n ->
    col_types !! n = Some (column_type col).
Proof.
  induction cols as [|c0 rest IH]; intros acc col_types col n H Hnd Hin Hn.
  - apply elem_of_nil in Hin. destruct Hin.
  - rewrite fmap_cons in Hnd. apply NoDup_cons in Hnd as [Hc0 Hnd].
    cbn [col_types_loop] in H.
    destruct (col_name c0) as [n0|] eqn:Hn0; [|discriminate]. simpl in H.
    apply elem_of_cons in Hin as [->|Hin].
    + rewrite Hn0 in Hn. inversion Hn; subst n0.
      rewrite (col_types_loop_other _ _ _ _ H Hc0).
      apply lookup_insert_eq.
    + eapply IH; eassumption.
Qed.

(** X15. With a descriptor whose column names are distinct, the type
    category used to coerce the cells of a column is the mapped type of
    that column, and a name the descriptor does not have is given TEXT. *)
Theorem col_types_are_mapped_types (d : schema)
    (col_types : gmap string string) :
  build_col_types (Some d) = Ok col_types ->
  schema_truthy d = true ->
  NoDup (col_name <$> get_columns d) ->
  (forall col n,
     col ∈ get_columns d -> col_name col = Some n ->
     dict_get col_types n "TEXT" = column_type col)
  /\ (forall n,
        Some n ∉ col_name <$> get_columns d ->
        dict_get col_types n "TEXT" = "TEXT").
Proof.
  intros H Ht Hnd. simpl in H. rewrite Ht in H. split.
  - intros col n Hin Hn. unfold dict_get.
    rewrite (col_types_loop_lookup _ _ _ _ _ H Hnd Hin Hn). reflexivity.
  - intros n Hn. unfold dict_get.
    rewrite (col_types_loop_other _ _ _ _ H Hn), lookup_empty. reflexivity.
Qed.

Lemma col_types_are_mapped_types_witness :
  exists col_types,
    build_col_types (Some demo_schema) = Ok col_types
    /\ dict_get col_types "PAT_ID" "TEXT" = "INTEGER"
    /\ dict_get col_types "EXTRA" "TEXT" = "TEXT".
Proof.
  pose (r := build_col_types (Some demo_schema)).
  pose (m := match r with Ok m => m | Raise _ => ∅ end).
  assert (H : r = Ok m) by (vm_compute; reflexivity).
  assert (Hnd : NoDup (col_name <$> get_columns demo_schema)).
  { apply NoDup_cons. split.
    - intros Hin. apply list_elem_of_In in Hin.
      destruct Hin as [Hin|[]]; discriminate.
    - apply NoDup_singleton. }
  destruct (col_types_are_mapped_types demo_schema m H eq_refl Hnd)
    as [Hin Hout].
  exists m. split; [exact H|]. split.
  - apply (Hin (Column (Some "PAT_ID") (Some "INTEGER") (Some "id"))).
    + apply list_elem_of_In. left. reflexivity.
    + reflexivity.
  - apply Hout. intros Hin'. apply list_elem_of_In in Hin'.
    destruct Hin' as [Hin'|[Hin'|[]]]; discriminate.
Defined.

Lemma column_loop_lines n no_pk cols :
  forall i defs names defs' names',
    column_loop n no_pk i cols defs names = Ok (defs', names') ->
    defs' = defs ++ imap (fun j => ddl_line n no_pk (i + j)) cols.
Proof.
  induction cols as [|col rest IH]; intros i defs names defs' names' H.
  - inversion H. rewrite app_nil_r. reflexivity.
  - cbn [column_loop] in H.
    destruct (col_name col) as [cname|] eqn:Hn; [|discriminate].
    simpl in H. apply IH in H. rewrite H, <- app_assoc. f_equal.
    cbn [imap app]. f_equal.
    + unfold ddl_line. rewrite Hn, Nat.add_0_r. reflexivity.
    + apply imap_ext. intros j c _. simpl. f_equal. lia.
Qed.

Lemma mapM_length {A B} (f : A -> result B) l l' :
  mapM f l = Ok l' -> length l' = length l.
Proof.
  intros H. apply mapM_Forall2 in H. symmetry. eapply Forall2_length.
  exact H.
Qed.

(** X16. When the DDL is built, it has one line per descriptor column,
    in order; every line but the last ends its definition with a comma,
    and the last one does so exactly when the descriptor has a primary
    key, whose clause then follows. *)
Theorem ddl_lines_and_commas (name : string) (d : schema)
    (script : string) (cols : list string) :
  create_table_script name d = Ok (script, cols) ->
  let n := length (get_columns d) in
  let no_pk := bool_decide (get_primaryKey d = []) in
  exists pk_cols,
    columnName <$> get_primaryKey d = Some <$> pk_cols
    /\ script =
         "DROP TABLE IF EXISTS " +:+ quoted name +:+ ";" +:+ LF
         +:+ "CREATE TABLE " +:+ quoted name +:+ " ( -- "
         +:+ esc (Some (default "" (description d))) +:+ LF
         +:+ PyStr.join LF (imap (ddl_line n no_pk) (get_columns d))
         +:+ (if no_pk then ""
              else "," +:+ LF +:+ "  PRIMARY KEY ("
                   +:+ PyStr.join ", " (map quoted pk_cols) +:+ ")")
         +:+ LF +:+ ");".
Proof.
  intros H n no_pk. unfold create_table_script in H.
  destruct (mapM _ (get_primaryKey d)) as [pk_cols|e] eqn:Hpk;
    [|discriminate].
  simpl in H.
  destruct (column_loop _ _ 0 (get_columns d) [] [])
    as [[defs names]|e] eqn:Hl; [|discriminate].
  simpl in H. inversion H; subst script cols. clear H.
  assert (Hno : bool_decide (pk_cols = []) = no_pk).
  { pose proof (mapM_length _ _ _ Hpk) as Hlen. subst no_pk.
    destruct pk_cols, (get_primaryKey d); try discriminate; reflexivity. }
  rewrite Hno in *. apply column_loop_lines in Hl. simpl in Hl. subst defs.
  exists pk_cols. split; [|reflexivity].
  apply mapM_Forall2 in Hpk. clear Hno.
  induction Hpk as [|p c l l' Hp _ IH]; [reflexivity|].
  rewrite !fmap_cons, IH. f_equal.
  destruct (columnName p); [|discriminate]. inversion Hp. reflexivity.
Qed.

Lemma ddl_lines_and_commas_witness :
  match create_table_script "PATIENT" demo_schema with
  | Ok (script, _) =>
      exists pk_cols,
        columnName <$> get_primaryKey demo_schema = Some <$> pk_cols
        /\ script =
             "DROP TABLE IF EXISTS " +:+ quoted "PATIENT" +:+ ";" +:+ LF
             +:+ "CREATE TABLE " +:+ quoted "PATIENT" +:+ " ( -- "
             +:+ esc (Some (default "" (description demo_schema))) +:+ LF
             +:+ PyStr.join LF
                   (imap (ddl_line 2 false) (get_columns demo_schema))
             +:+ ("," +:+ LF +:+ "  PRIMARY KEY ("
                  +:+ PyStr.join ", " (map quoted pk_cols) +:+ ")")
             +:+ LF +:+ ");"
  | Raise _ => False
  end.
Proof.
  destruct (create_table_script "PATIENT" demo_schema)
    as [[script cols]|e] eqn:H.
  - exact (ddl_lines_and_commas _ _ _ _ H).
  - vm_compute in H. discriminate.
Defined.

(** ** The error listing *)


(** ** Whole numbers in NUMERIC columns *)

Section WholeNumbers.

Import PyNum.

Lemma strip_twos_spec p :
  (Zpos p = Zpos (fst (strip_twos p)) * 2 ^ snd (strip_twos p)
   /\ 0 <= snd (strip_twos p))%Z.
Proof.
  induction p as [p IH|p IH|]; cbn [strip_twos]; try (simpl; lia).
  destruct (strip_twos p) as [q k]. cbn [fst snd] in *.
  destruct IH as [Hq Hk]. split; [|lia].
  rewrite Z.pow_add_r, Z.pow_1_r by lia.
  change (Zpos p~0) with (2 * Zpos p)%Z. lia.
Qed.

(** [normalize] keeps the value: a whole number [N], written
    [n * 2^e] with [e <= 0], is read back as [N]. *)
Lemma normalize_whole (neg : bool) (n e N : Z) :
  (0 < n)%Z -> (e <= 0)%Z -> (n = N * 2 ^ (- e))%Z ->
  let z := if neg then (- N)%Z else N in
  float_to_int (normalize neg n e) = Ok z
  /\ float_eq_int (normalize neg n e) z = true.
Proof.
  intros Hn He Hv z. unfold normalize.
  destruct n as [|p|p]; try lia.
  pose proof (strip_twos_spec p) as [Hq Hk].
  destruct (strip_twos p) as [q k]. cbn [fst snd] in *.
  unfold float_to_int, float_eq_int. cbn [Z.of_N].
  assert (Hpe : (0 < 2 ^ (- e))%Z) by (apply Z.pow_pos_nonneg; lia).
  destruct (0 <=? e + k)%Z eqn:Hek.
  - apply Z.leb_le in Hek.
    assert (Hk' : (2 ^ k = 2 ^ (e + k) * 2 ^ (- e))%Z).
    { rewrite <- Z.pow_add_r by lia. f_equal. lia. }
    assert (HN : (Zpos q * 2 ^ (e + k) = N)%Z) by nia.
    subst z. destruct neg; split; try apply Z.eqb_eq; f_equal; lia.
  - apply Z.leb_gt in Hek.
    assert (Hk' : (2 ^ (- e) = 2 ^ (- (e + k)) * 2 ^ k)%Z).
    { rewrite <- Z.pow_add_r by lia. f_equal. lia. }
    assert (Hpk : (0 < 2 ^ k)%Z) by (apply Z.pow_pos_nonneg; lia).
    assert (Hpj : (0 < 2 ^ (- (e + k)))%Z) by (apply Z.pow_pos_nonneg; lia).
    assert (HN : (Zpos q = N * 2 ^ (- (e + k)))%Z) by nia.
    rewrite HN, Z.div_mul by lia.
    subst z. destruct neg; split; try apply Z.eqb_eq; f_equal; lia.
Qed.

(** Below [2^53] the rounding of [round_ratio] changes nothing. *)
Lemma round_ratio_whole (neg : bool) (N : Z) :
  (0 < N < 2 ^ 53)%Z ->
  let z := if neg then (- N)%Z else N in
  float_to_int (round_ratio neg N 1) = Ok z
  /\ float_eq_int (round_ratio neg N 1) z = true.
Proof.
  intros [Hpos Hlt]. unfold round_ratio.
  change (Z.log2 1) with 0%Z.
  pose proof (Z.log2_spec N Hpos) as [Hlo Hhi].
  pose proof (Z.log2_nonneg N) as Hl0.
  assert (Hl : (Z.log2 N <= 52)%Z).
  { apply Z.log2_lt_pow2 in Hlt; lia. }
  set (e0 := (Z.log2 N - 0 - 52)%Z).
  assert (He0 : (- 52 <= e0 <= 0)%Z) by (subst e0; lia).
  assert (Hsc : (if (0 <=? e0)%Z then (N, 1 * 2 ^ e0)%Z
                 else (N * 2 ^ (- e0), 1)%Z) = (N * 2 ^ (- e0), 1)%Z).
  { destruct (0 <=? e0)%Z eqn:H0; [|reflexivity].
    apply Z.leb_le in H0. replace e0 with 0%Z by lia. simpl. f_equal. lia. }
  rewrite Hsc.
  assert (Hbig : (2 ^ 52 <= N * 2 ^ (- e0))%Z).
  { replace (2 ^ 52)%Z with (2 ^ Z.log2 N * 2 ^ (- e0))%Z.
    - apply Z.mul_le_mono_nonneg_r; [apply Z.pow_nonneg; lia|exact Hlo].
    - rewrite <- Z.pow_add_r by lia. f_equal. subst e0. lia. }
  rewrite Z.div_1_r.
  assert ((N * 2 ^ (- e0) <? 2 ^ 52)%Z = false) as -> by (apply Z.ltb_ge; lia).
  rewrite Z.max_l by lia. rewrite Hsc, Z.div_1_r, Z.mod_1_r.
  change (1 <? 2 * 0)%Z with false. change (1 =? 2 * 0)%Z with false.
  cbn [orb andb].
  assert ((971 <? e0)%Z = false) as -> by (apply Z.ltb_ge; lia).
  assert ((e0 =? 971)%Z = false) as -> by (apply Z.eqb_neq; lia).
  cbn [orb andb]. apply normalize_whole; [lia|lia|reflexivity].
Qed.

Lemma is_digit_code c : is_digit c = true -> 48 <= PyStr.code c <= 57.
Proof.
  unfold is_digit. intros H. apply andb_prop in H as [H1 H2].
  apply Nat.leb_le in H1, H2. lia.
Qed.

Lemma take_digits_all t :
  forall ds,
    take_digits t = (ds, "") ->
    Forall (fun d => 0 <= d)%Z ds
    /\ digitpart true t = Some ds
    /\ (t <> "" -> digitpart false t = Some ds)
    /\ (forall b, remove_underscores b t = Some t)
    /\ PyStr.contains "." t = false
    /\ (ds = [] <-> t = "").
Proof.
  induction t as [|c r IH]; intros ds H.
  - inversion H. repeat split; auto; try reflexivity; try constructor.
    intros; contradiction.
  - cbn [take_digits] in H. destruct (is_digit c) eqn:Hc; [|discriminate].
    destruct (take_digits r) as [ds' rest] eqn:Hr.
    inversion H; subst ds rest. clear H.
    destruct (IH ds' eq_refl) as (Hnn & Ht & _ & Hu & Hdot & _).
    pose proof (is_digit_code c Hc) as Hcode.
    assert (H95 : (PyStr.code c =? 95) = false) by (apply Nat.eqb_neq; lia).
    repeat split.
    + constructor; [unfold digit_val; lia|exact Hnn].
    + cbn [digitpart]. rewrite Hc, Ht. reflexivity.
    + intros _. cbn [digitpart]. rewrite Hc, Ht. reflexivity.
    + intros b. cbn [remove_underscores]. rewrite H95, Hu. reflexivity.
    + cbn [PyStr.contains PyStr.startswith]. rewrite Hdot, orb_false_r.
      rewrite andb_true_r. apply Nat.eqb_neq.
      change (PyStr.code ".") with 46. lia.
    + discriminate.
    + discriminate.
Qed.

Lemma digits_value_nonneg ds :
  Forall (fun d => 0 <= d)%Z ds -> (0 <= digits_value ds)%Z.
Proof.
  unfold digits_value. intros H.
  assert (Hacc : forall acc, (0 <= acc)%Z ->
            (0 <= fold_left (fun a d => 10 * a + d) ds acc)%Z).
  { induction H as [|d l Hd _ IH]; intros acc Ha; [exact Ha|].
    cbn [fold_left]. apply IH. lia. }
  apply Hacc. lia.
Qed.

(** The float read from a text of digits whose value is below [2^53]
    is that value. *)
Lemma py_float_whole c r ds :
  take_digits (String c r) = (ds, "") ->
  (digits_value ds < 2 ^ 53)%Z ->
  exists f,
    py_float (String c r) = Ok f
    /\ float_to_int f = Ok (digits_value ds)
    /\ float_eq_int f (digits_value ds) = true.
Proof.
  intros Ht Hlt.
  destruct (take_digits_all _ _ Ht) as (Hnn & _ & _ & Hu & _ & Hne).
  assert (Hc : is_digit c = true).
  { cbn [take_digits] in Ht. destruct (is_digit c); [reflexivity|].
    discriminate. }
  pose proof (is_digit_code c Hc) as Hcode.
  unfold py_float. rewrite Hu. cbn [split_sign].
  assert ((PyStr.code c =? 45) = false) as -> by (apply Nat.eqb_neq; lia).
  assert ((PyStr.code c =? 43) = false) as -> by (apply Nat.eqb_neq; lia).
  assert (Hlow : to_lower c = c).
  { unfold to_lower.
    assert ((65 <=? PyStr.code c) = false) as -> by (apply Nat.leb_gt; lia).
    reflexivity. }
  assert (Hword : forall w, w = "inf" \/ w = "infinity" \/ w = "nan" ->
            PyStr.eqb (lower (String c r)) w = false).
  { intros w Hw. apply bool_decide_eq_false_2. cbn [lower]. rewrite Hlow.
    intros Heq. destruct Hw as [-> | [-> | ->]]; inversion Heq; subst c;
      vm_compute in Hcode; lia. }
  rewrite !Hword by auto. cbn [orb].
  unfold parse_decimal. rewrite Ht. cbn beta iota zeta.
  cbn [take_digits]. cbn beta iota zeta. rewrite app_nil_r.
  cbn [length Nat.add]. rewrite Nat.add_0_r.
  assert ((length ds =? 0) = false) as ->.
  { apply Nat.eqb_neq. destruct ds; [|discriminate].
    destruct Hne as [Hne _]. discriminate (Hne eq_refl). }
  change (- Z.of_nat 0)%Z with 0%Z. unfold float_of_decimal.
  pose proof (digits_value_nonneg ds Hnn) as H0.
  destruct (digits_value ds =? 0)%Z eqn:Hz.
  - apply Z.eqb_eq in Hz. rewrite Hz. eexists. split; [reflexivity|].
    split; reflexivity.
  - apply Z.eqb_neq in Hz. change (0 <=? 0)%Z with true. cbn iota.
    rewrite Z.pow_0_r, Z.mul_1_r. eexists. split; [reflexivity|].
    apply (round_ratio_whole false). lia.
Qed.

(** X18. For a cell whose trimmed text is a string of ASCII digits
    denoting a number below [2^53], an INTEGER, a NUMERIC and a REAL
    column all receive that number as an integer: reading it as a float
    loses nothing. *)
Theorem digits_are_kept (v : string) (ds : list Z) :
  take_digits (PyStr.strip v) = (ds, "") ->
  ds <> [] ->
  (digits_value ds < 2 ^ 53)%Z ->
  coerce (Some v) "INTEGER" = Ok (VInt (digits_value ds))
  /\ coerce (Some v) "NUMERIC" = Ok (VInt (digits_value ds))
  /\ coerce (Some v) "REAL" = Ok (VInt (digits_value ds)).
Proof.
  intros Ht Hds Hlt.
  destruct (take_digits_all _ _ Ht) as (_ & _ & Hd & _ & Hdot & Hne).
  assert (Hs : PyStr.strip v <> "") by (intros He; apply Hds, Hne, He).
  assert (Hb : PyStr.eqb (PyStr.strip v) "" = false)
    by (apply bool_decide_eq_false_2; exact Hs).
  split.
  - rewrite coerce_integer_eq, Hb. unfold integer_branch, py_int.
    destruct (PyStr.strip v) as [|c r] eqn:Hv; [contradiction|].
    assert (Hc : is_digit c = true).
    { cbn [take_digits] in Ht. destruct (is_digit c); [reflexivity|].
      discriminate. }
    pose proof (is_digit_code c Hc) as Hcode. cbn [split_sign].
    assert ((PyStr.code c =? 45) = false) as -> by (apply Nat.eqb_neq; lia).
    assert ((PyStr.code c =? 43) = false) as -> by (apply Nat.eqb_neq; lia).
    rewrite (Hd Hs). reflexivity.
  - assert (Hn : numeric_branch (PyStr.strip v) = VInt (digits_value ds)).
    { destruct (PyStr.strip v) as [|c r] eqn:Hv; [contradiction|].
      destruct (py_float_whole c r ds Ht Hlt) as (f & Hf & Hi & He).
      unfold numeric_branch, integral. rewrite Hf, Hi, He, Hdot.
      reflexivity. }
    rewrite !coerce_numeric_eq, Hb, Hn by auto. auto.
Qed.

Lemma digits_are_kept_witness :
  coerce (Some " 0012345678 ") "INTEGER" = Ok (VInt 12345678)
  /\ coerce (Some " 0012345678 ") "NUMERIC" = Ok (VInt 12345678)
  /\ coerce (Some " 0012345678 ") "REAL" = Ok (VInt 12345678).
Proof.
  assert (Ht : take_digits (PyStr.strip " 0012345678 ")
               = ([0; 0; 1; 2; 3; 4; 5; 6; 7; 8]%Z, ""))
    by (vm_compute; reflexivity).
  apply (digits_are_kept " 0012345678 " _ Ht).
  - discriminate.
  - vm_compute. reflexivity.
Defined.

End WholeNumbers.

(** ** The further properties on the example inputs *)

Lemma clean_row_lookup_witness :
  exists cleaned,
    clean_row (DictRow [("ID", Some ("7" +:+ CR)); ("NOTE", None)] [])
      = Ok cleaned
    /\ cleaned !! "ID" = Some (Some "7")
    /\ cleaned !! "NOTE" = Some None.
Proof.
  pose (row := DictRow [("ID", Some ("7" +:+ CR)); ("NOTE", None)] []).
  pose (m := clean_items (row_items row) ∅).
  assert (H : clean_row row = Ok m) by reflexivity.
  assert (Hnd : NoDup (fst <$> row_items row)).
  { apply NoDup_cons. split.
    - intros Hin. apply list_elem_of_In in Hin.
      destruct Hin as [Hin|[]]; discriminate.
    - apply NoDup_singleton. }
  assert (Hcr : Forall (fun kv => PyStr.endswith CR (fst kv) = false)
                  (row_items row))
    by (repeat constructor).
  exists m. split; [exact H|]. split.
  - apply (clean_row_lookup row m "ID" (Some ("7" +:+ CR)) H Hnd Hcr).
    apply list_elem_of_In. left. reflexivity.
  - apply (clean_row_lookup row m "NOTE" None H Hnd Hcr).
    apply list_elem_of_In. right. left. reflexivity.
Defined.


Lemma long_row_leaves_process_table_witness :
  RefStore.main long_row_sources []
    = Raise (Exn AttributeError "'list' object has no attribute 'rstrip'").
Proof.
  unfold RefStore.main, main.
  change (tsv_files long_row_sources) with ["LONG.tsv"].
  refine (proj2 (proj2
    (long_row_leaves_process_table RefStore.executescript RefStore.execute
       RefStore.executemany long_row_sources (RunState [] 0 0 [])
       "LONG.tsv" None
       (TsvContent (Some ["ID"])
          [row_of [("ID", "1")]; DictRow [("ID", Some "2")] ["x"]])
       _ _ _)) []).
  - reflexivity.
  - reflexivity.
  - apply Exists_cons_tl, Exists_cons_hd. discriminate.
Defined.

Lemma unnamed_column_leaves_process_table_witness :
  RefStore.process_table (one_schema_sources unnamed_column_schema)
    (RunState [] 0 0 []) "T.tsv"
  = Raise (Exn KeyError "'name'").
Proof.
  pose (rows := match load_tsv_rows (one_schema_sources unnamed_column_schema)
                        (path_join TSV_DIR "T.tsv") with
                | Ok (_, rows) => rows
                | Raise _ => []
                end).
  apply (unnamed_column_leaves_process_table RefStore.executescript
           RefStore.execute RefStore.executemany
           (one_schema_sources unnamed_column_schema) (RunState [] 0 0 [])
           "T.tsv" unnamed_column_schema ["ID"] rows).
  - reflexivity.
  - reflexivity.
  - apply Exists_cons_tl, Exists_cons_hd. reflexivity.
  - vm_compute; reflexivity.
  - discriminate.
Defined.

Lemma unnamed_key_is_recorded_witness :
  RefStore.process_table (one_schema_sources unnamed_key_schema)
    (RunState [] 0 0 []) "T.tsv"
  = Ok (RunState [] 0 0 ["T: CREATE failed: 'columnName'"]).
Proof.
  pose (rows := match load_tsv_rows (one_schema_sources unnamed_key_schema)
                        (path_join TSV_DIR "T.tsv") with
                | Ok (_, rows) => rows
                | Raise _ => []
                end).
  apply (unnamed_key_is_recorded RefStore.executescript
           RefStore.execute RefStore.executemany
           (one_schema_sources unnamed_key_schema) (RunState [] 0 0 [])
           "T.tsv" unnamed_key_schema ["ID"] ["ID"] rows).
  - reflexivity.
  - reflexivity.
  - reflexivity.
  - apply Exists_cons_hd. reflexivity.
  - vm_compute; reflexivity.
  - discriminate.
Defined.

Lemma every_file_is_accounted_for_witness :
  match RefStore.main demo_sources [] with
  | Ok st =>
      exists new,
        errors st = [] ++ new
        /\ length new <= 2
        /\ 0 <= tables_ok st
        /\ 0 + 2 <= tables_ok st + length new
  | Raise _ => False
  end.
Proof.
  destruct (RefStore.main demo_sources []) as [st|e] eqn:H.
  - unfold RefStore.main, main in H.
    exact (every_file_is_accounted_for RefStore.executescript
             RefStore.execute RefStore.executemany demo_sources
             (tsv_files demo_sources) (RunState [] 0 0 []) st H).
  - vm_compute in H. discriminate.
Defined.

(** ** Table names, and values with and without a descriptor *)

Lemma list_ascii_of_string_app s t :
  list_ascii_of_string (s +:+ t)
  = list_ascii_of_string s ++ list_ascii_of_string t.
Proof.
  induction s as [|c r IH]; [reflexivity|].
  rewrite append_cons. cbn [list_ascii_of_string app]. rewrite IH.
  reflexivity.
Qed.

Lemma startswith_of_list_app a b :
  PyStr.startswith (string_of_list_ascii a) (string_of_list_ascii (a ++ b))
  = true.
Proof.
  induction a as [|c a IH]; [reflexivity|].
  cbn [app string_of_list_ascii PyStr.startswith].
  rewrite Nat.eqb_refl, IH. reflexivity.
Qed.

Lemma endswith_app p s : PyStr.endswith p (s +:+ p) = true.
Proof.
  unfold PyStr.endswith. rewrite list_ascii_of_string_app, rev_app_distr.
  apply startswith_of_list_app.
Qed.

(** X19. A file [<name>.tsv] is one of the files the run selects, and
    when its base name does not itself contain [.tsv], the table name
    computed at line 143 is the base name, unchanged. *)
Theorem table_name_is_base_name (name : string) :
  PyStr.contains ".tsv" name = false ->
  PyStr.endswith ".tsv" (name +:+ ".tsv") = true
  /\ PyStr.replace ".tsv" "" (name +:+ ".tsv") = name.
Proof.
  intros H. split.
  - apply endswith_app.
  - apply table_name_plain. exact H.
Qed.

Lemma table_name_is_base_name_witness :
  PyStr.replace ".tsv" "" ("PATIENT_2" +:+ ".tsv") = "PATIENT_2".
Proof.
  apply table_name_is_base_name. reflexivity.
Defined.

(** X20. Without a descriptor (or with an empty one) no column has a
    type category, so every value of the batch is null or the trimmed
    text of its cell: nothing is converted to a number. *)
Theorem fallback_values_are_text (schema : option schema)
    (cols : list string) (rows : list (gmap string (option string)))
    (batch : list (list pyval)) :
  truthy schema = false ->
  build_col_types schema = Ok ∅
  /\ (build_batch ∅ cols rows = Ok batch ->
      Forall (Forall (fun v => v = VNone \/ exists s, v = VText s)) batch).
Proof.
  intros Ht. split.
  - destruct schema as [d|]; [|reflexivity]. simpl in *. rewrite Ht.
    reflexivity.
  - intros Hb. apply mapM_Forall2 in Hb.
    induction Hb as [|row values l l' Hrow _ IH]; constructor; [|exact IH].
    unfold row_values in Hrow. apply mapM_Forall2 in Hrow.
    induction Hrow as [|col v cs vs Hv _ IHr]; constructor; [|exact IHr].
    unfold dict_get at 2 in Hv. rewrite lookup_empty in Hv. simpl in Hv.
    destruct (dict_get row col (Some "")) as [cell|];
      [|inversion Hv; auto].
    rewrite coerce_text_eq in Hv by discriminate.
    destruct (PyStr.eqb (PyStr.strip cell) ""); inversion Hv; eauto.
Qed.

Lemma fallback_values_are_text_witness :
  exists batch,
    build_batch ∅ ["ID"] [ {[ "ID" := Some "42" ]} ] = Ok batch
    /\ Forall (Forall (fun v => v = VNone \/ exists s, v = VText s)) batch.
Proof.
  pose (r := build_batch ∅ ["ID"] [ {[ "ID" := Some "42" ]} ]).
  pose (b := match r with Ok b => b | Raise _ => [] end).
  assert (H : r = Ok b) by (vm_compute; reflexivity).
  exists b. split; [exact H|].
  exact (proj2 (fallback_values_are_text None ["ID"]
                  [ {[ "ID" := Some "42" ]} ] b eq_refl) H).
Defined.

Lemma row_values_typed col_types row cs :
  forall names,
    col_name <$> cs = Some <$> names ->
    (forall col n,
       col ∈ cs -> col_name col = Some n ->
       dict_get col_types n "TEXT" = column_type col) ->
    row_values col_types names row
    = mapM (fun col =>
              coerce (dict_get row (default "" (col_name col)) (Some ""))
                     (column_type col))
           cs.
Proof.
  unfold row_values.
  induction cs as [|col rest IH]; intros [|n names] Hn Hty;
    try discriminate; [reflexivity|].
  rewrite !fmap_cons in Hn. injection Hn as Hc Hrest.
  cbn [mapM]. rewrite Hc. cbn [default].
  rewrite (Hty col n) by (auto; apply elem_of_cons; auto).
  rewrite (IH names Hrest); [reflexivity|].
  intros c m Hin Hm. apply Hty; [|exact Hm]. apply elem_of_cons. auto.
Qed.

(** X21. With a descriptor whose column names are distinct, the tuple
    of a row is, column by column in the descriptor's order, the cell
    the row holds under the column's name coerced to the column's own
    mapped type. *)
Theorem schema_mode_values_typed (d : schema)
    (col_types : gmap string string) (cols : list string)
    (row : gmap string (option string)) :
  build_col_types (Some d) = Ok col_types ->
  schema_truthy d = true ->
  NoDup (col_name <$> get_columns d) ->
  col_name <$> get_columns d = Some <$> cols ->
  row_values col_types cols row
  = mapM (fun col =>
            coerce (dict_get row (default "" (col_name col)) (Some ""))
                   (column_type col))
         (get_columns d).
Proof.
  intros H Ht Hnd Hn. apply row_values_typed; [exact Hn|].
  simpl in H. rewrite Ht in H. intros col n Hin Hcn. unfold dict_get.
  rewrite (col_types_loop_lookup _ _ _ _ _ H Hnd Hin Hcn). reflexivity.
Qed.

Lemma schema_mode_values_typed_witness :
  exists col_types,
    build_col_types (Some demo_schema) = Ok col_types
    /\ row_values col_types ["PAT_ID"; "PAT_NAME"]
         {[ "PAT_ID" := Some " 7 "; "PAT_NAME" := Some "7" ]}
       = Ok [VInt 7; VText "7"].
Proof.
  pose (r := build_col_types (Some demo_schema)).
  pose (m := match r with Ok m => m | Raise _ => ∅ end).
  assert (H : r = Ok m) by (vm_compute; reflexivity).
  assert (Hnd : NoDup (col_name <$> get_columns demo_schema)).
  { apply NoDup_cons. split.
    - intros Hin. apply list_elem_of_In in Hin.
      destruct Hin as [Hin|[]]; discriminate.
    - apply NoDup_singleton. }
  exists m. split; [exact H|].
  rewrite (schema_mode_values_typed demo_schema m ["PAT_ID"; "PAT_NAME"]
             _ H eq_refl Hnd eq_refl).
  vm_compute. reflexivity.
Defined.
